(** * collectd-statsd: the write plugin [statsd_writer], embedded and verified

    A shallow embedding of [statsd_writer/__init__.py]: the types database
    parser ([parse_sources], [parse_types]), the configuration callback
    ([configure]), the path builder ([stats_path]), the three writers
    ([write_stats], [write_interface], [write_apache_worker_memory]) and the
    dispatch ([get_stats_writer], [statsd_write]). [initialize], which
    builds the statsd client, is represented by the [stats] entry it adds
    to the shared data.

    Python values are modelled as follows.
    - [str]: Rocq [string]; a character is a code point below 256.
    - [dict]: stdpp's [gmap]; a dict built from a sequence of pairs keeps the
      last value of a repeated key.
    - numbers: [number], a Python [int] or a [float] (IEEE binary64, the
      kernel's primitive floats).
    - exceptions: the [Err] branch of [result]; the effects on collectd's log
      and on the statsd client are recorded in a [world] that an exception
      leaves as it was when raised. *)

From Stdlib Require Import ZArith Floats Ascii.
From stdpp Require Import gmap strings list pretty.

(** ** Python strings *)

Module PyStr.

(** [str.isspace] of one character (code points below 256). *)
Definition isspace (c : ascii) : bool :=
  let n := N_of_ascii c in
  (((9 <=? n) && (n <=? 13)) || ((28 <=? n) && (n <=? 32))
   || (n =? 133) || (n =? 160))%N.

Fixpoint all_space (s : string) : bool :=
  match s with
  | "" => true
  | String c s' => isspace c && all_space s'
  end.

Fixpoint lstrip (s : string) : string :=
  match s with
  | "" => ""
  | String c s' => if isspace c then lstrip s' else s
  end.

Fixpoint rstrip (s : string) : string :=
  match s with
  | "" => ""
  | String c s' => if all_space s then "" else String c (rstrip s')
  end.

(** [s.strip()] *)
Definition strip (s : string) : string := rstrip (lstrip s).

(** [s.startswith(p)] *)
Fixpoint startswith (p s : string) : bool :=
  match p, s with
  | "", _ => true
  | String a p', String b s' => if decide (a = b) then startswith p' s' else false
  | String _ _, "" => false
  end.

(** [s.replace(a, b)] for one-character [a] and [b]. *)
Fixpoint replace (a b : ascii) (s : string) : string :=
  match s with
  | "" => ""
  | String c s' => String (if decide (c = a) then b else c) (replace a b s')
  end.

(** [s.split(sep)] for a one-character separator: never empty, and empty
    fields are kept. *)
Fixpoint split_on (sep : ascii) (s : string) : list string :=
  match s with
  | "" => [""]
  | String c s' =>
      if decide (c = sep) then "" :: split_on sep s'
      else match split_on sep s' with
           | w :: ws => String c w :: ws
           | [] => [String c ""]
           end
  end.

(** The longest prefix without whitespace, and what follows it. *)
Fixpoint break_space (s : string) : string * string :=
  match s with
  | "" => ("", "")
  | String c s' =>
      if isspace c then ("", s)
      else let '(w, r) := break_space s' in (String c w, r)
  end.

(** [s.split()]: the maximal runs of characters that are not whitespace. *)
Fixpoint split (s : string) : list string :=
  match s with
  | "" => []
  | String c s' =>
      if isspace c then split s'
      else match s' with
           | "" => [String c ""]
           | String c' _ =>
               if isspace c' then String c "" :: split s'
               else match split s' with
                    | w :: ws => String c w :: ws
                    | [] => [String c ""]
                    end
           end
  end.

(** [s.split(None, 1)]: the first word, then the rest of the string after
    the whitespace that follows the word, when there is any rest. *)
Definition split1 (s : string) : list string :=
  match lstrip s with
  | "" => []
  | t =>
      let '(w, r) := break_space t in
      match lstrip r with
      | "" => [w]
      | r' => [w; r']
      end
  end.

(** [str.lower] of one character (code points below 256). *)
Definition lower_char (c : ascii) : ascii :=
  let n := N_of_ascii c in
  if (((65 <=? n) && (n <=? 90))
      || ((192 <=? n) && (n <=? 222) && negb (n =? 215)))%N
  then ascii_of_N (n + 32) else c.

Fixpoint lower (s : string) : string :=
  match s with
  | "" => ""
  | String c s' => String (lower_char c) (lower s')
  end.

(** [s[n:]] for [0 <= n]. *)
Fixpoint drop (n : nat) (s : string) : string :=
  match n, s with
  | O, _ => s
  | S n', String _ s' => drop n' s'
  | S _, "" => ""
  end.

(** [sep.join(l)] *)
Fixpoint join (sep : string) (l : list string) : string :=
  match l with
  | [] => ""
  | [x] => x
  | x :: l' => x +:+ sep +:+ join sep l'
  end.

(** The first character that is not whitespace, if any. *)
Definition first_nonspace (s : string) : option ascii :=
  match lstrip s with
  | "" => None
  | String c _ => Some c
  end.

End PyStr.

(** ** Python values, exceptions and effects *)

(** A number: a Python [int] or [float]. collectd hands a gauge over as a
    [float] and a counter, derive or absolute as a 64-bit integer. *)
Inductive number :=
  | PyInt (z : Z)
  | PyFloat (f : float).

(** [float(value)]: the nearest binary64, ties to even. Python raises
    OverflowError from [2^1024] on, far beyond collectd's 64-bit integers;
    the conversion is total here and gives an infinity there. *)
Definition py_float (value : number) : number :=
  match value with
  | PyInt z => PyFloat (SF2Prim (binary_normalize prec emax z 0 false))
  | PyFloat f => PyFloat f
  end.

(** What a configuration item or a default may hold. *)
Inductive pyval :=
  | PyNone
  | PyStr (s : string)
  | PyNum (n : number)
  | PyBool (b : bool).

(** The exceptions the module can raise, by Python class. *)
Inductive exn :=
  | KeyError (key : option string)
  | IndexError
  | TypeError
  | ValueError
  | IOError
  | RuntimeError (message : string).

Inductive result (A : Type) :=
  | Ok (a : A)
  | Err (e : exn).
Arguments Ok {A} a.
Arguments Err {A} e.

(** One line of collectd's log. [collectd.info('%s: %s = %s' % (plugin,
    path, value))] is kept as its three arguments. *)
Inductive log_entry :=
  | LogInfo (plugin path : string) (value : number)
  | LogWarning (message : string).

(** One call of the statsd client. *)
Inductive metric :=
  | Gauge (path : string) (value : number)
  | Timing (path : string) (value : number).

(** The statsd client object: a handle; its calls are recorded in the world. *)
Variant StatsClient : Set := Client.

(** ** The types database *)

(** A data source: [dict(zip(fields, ...))]. *)
Abbreviation descriptor := (gmap string string).
(** The types: data-set name to its data sources, in order. *)
Abbreviation schema := (gmap string (list descriptor)).

(** [dict(pairs)]: each pair is stored in turn, a later one replacing an
    earlier one of the same key. *)
Definition setitem {V : Type} (d : gmap string V) (kv : string * V) : gmap string V :=
  <[kv.1 := kv.2]> d.
Definition dict {V : Type} (pairs : list (string * V)) : gmap string V :=
  foldl setitem ∅ pairs.

Definition fields : list string := ["name"; "type"; "min"; "max"].

Definition parse_sources (sources : string) : list descriptor :=
  let sources := PyStr.split (PyStr.replace ","%char " "%char sources) in
  (fun source => dict (zip fields (PyStr.split_on ":"%char source))) <$> sources.

(** The condition of the comprehension: [line and not line.startswith('#')]. *)
Definition keep_line (line : string) : bool :=
  negb (bool_decide (line = "")) && negb (PyStr.startswith "#" line).

(** [for name, sources in specs]: a spec unpacks into exactly two items. *)
Definition unpack (spec : list string) : result (string * string) :=
  match spec with
  | [name; sources] => Ok (name, sources)
  | _ => Err ValueError
  end.

(** The generator handed to [dict]: the pairs up to the first spec that
    does not unpack, where the exception ends the construction. *)
Fixpoint spec_pairs (specs : list (list string))
  : result (list (string * list descriptor)) :=
  match specs with
  | [] => Ok []
  | spec :: specs' =>
      match unpack spec with
      | Err e => Err e
      | Ok (name, sources) =>
          match spec_pairs specs' with
          | Err e => Err e
          | Ok ps => Ok ((name, parse_sources sources) :: ps)
          end
      end
  end.

(** The body of [parse_types] on the lines the file yields. *)
Definition parse_lines (types_db : list string) : result schema :=
  let stripped := PyStr.strip <$> types_db in
  let specs := PyStr.split1 <$> filter (fun line => keep_line line = true) stripped in
  match spec_pairs specs with
  | Err e => Err e
  | Ok ps => Ok (dict ps)
  end.

(** [open(path)] and the iteration over the file: the lines, each with its
    line end, or the exception [open] raises. *)
Definition filesystem := pyval -> result (list string).

Definition parse_types (fs : filesystem) (path : pyval) : result schema :=
  match fs path with
  | Err e => Err e
  | Ok types_db => parse_lines types_db
  end.

(** ** The world: collectd's log, the client's calls, the callbacks *)

(** The [data] dict that [configure] builds and the callbacks share:
    ['conf'], ['types'] and, once [initialize] has run, ['stats'] ([None]
    here while the dict has no such entry). *)
Record Data := {
  conf : gmap string pyval;
  types : schema;
  stats : option StatsClient;
}.

Record world := {
  log : list log_entry;
  sent : list metric;
  init_callbacks : list Data;
}.

Definition world0 : world := {| log := []; sent := []; init_callbacks := [] |}.

(** A computation: its value or exception, and the world it leaves. *)
Definition M (A : Type) : Type := world -> result A * world.

Definition ret {A} (a : A) : M A := fun w => (Ok a, w).
Definition raise {A} (e : exn) : M A := fun w => (Err e, w).
Definition bind {A B} (m : M A) (k : A -> M B) : M B :=
  fun w => match m w with
           | (Ok a, w') => k a w'
           | (Err e, w') => (Err e, w')
           end.
Definition lift {A} (r : result A) : M A := fun w => (r, w).

Notation "'do' x <- m ; k" := (bind m (fun x => k))
  (at level 10, x name, m at level 100, k at level 200).
Notation "m >> k" := (bind m (fun _ => k))
  (at level 100, k at level 200, right associativity).

Definition info (plugin path : string) (value : number) : M unit :=
  fun w => (Ok tt, {| log := log w ++ [LogInfo plugin path value];
                      sent := sent w; init_callbacks := init_callbacks w |}).
Definition warning (message : string) : M unit :=
  fun w => (Ok tt, {| log := log w ++ [LogWarning message];
                      sent := sent w; init_callbacks := init_callbacks w |}).
Definition send (m : metric) : M unit :=
  fun w => (Ok tt, {| log := log w; sent := sent w ++ [m];
                      init_callbacks := init_callbacks w |}).
Definition gauge (client : StatsClient) (path : string) (value : number) : M unit :=
  send (Gauge path value).
Definition timing (client : StatsClient) (path : string) (value : number) : M unit :=
  send (Timing path value).
Definition register_init (data : Data) : M unit :=
  fun w => (Ok tt, {| log := log w; sent := sent w;
                      init_callbacks := init_callbacks w ++ [data] |}).

(** [for x in l: body], the loop's variables threaded through as [s]. *)
Fixpoint for_each {A S : Type} (l : list A) (body : A -> S -> M S) (s : S) : M S :=
  match l with
  | [] => ret s
  | x :: l' => do s' <- body x s; for_each l' body s'
  end.

Fixpoint enumerate_from {A : Type} (i : nat) (l : list A) : list (nat * A) :=
  match l with
  | [] => []
  | x :: l' => (i, x) :: enumerate_from (S i) l'
  end.
Definition enumerate {A : Type} (l : list A) : list (nat * A) := enumerate_from 0 l.

(** [d[key]] on a dict with string keys; [None] is no key of it. *)
Definition getitem {V : Type} (d : gmap string V) (key : option string) : result V :=
  match key with
  | Some k => match d !! k with Some v => Ok v | None => Err (KeyError key) end
  | None => Err (KeyError None)
  end.

(** [l[idx]] for [0 <= idx]. *)
Definition index {A : Type} (l : list A) (idx : nat) : result A :=
  match l !! idx with Some x => Ok x | None => Err IndexError end.

(** ** Configuration *)

Definition DEFAULTS : gmap string pyval :=
  <["typesdb" := PyStr "/usr/share/collectd/types.db"]>
  (<["prefix" := PyNone]>
  (<["port" := PyNum (PyInt 8125)]>
  (<["host" := PyStr "localhost"]> ∅))).

(** A node of collectd's configuration tree: the root's [children] are the
    items, of which the plugin reads [key] and [values]. *)
Module Config.
Record Item := { key : string; values : list pyval }.
Record Config := { children : list Item }.
End Config.

(** ['...%i' % n] *)
Definition format_i (n : nat) : string := pretty n.

(** The body of the loop over [config.children]. *)
Definition configure_item (item : Config.Item) (conf : gmap string pyval)
  : M (gmap string pyval) :=
  let key_ := PyStr.lower (Config.key item) in
  if bool_decide (DEFAULTS !! key_ = None) then
    warning ("Unexpected configuration key: " +:+ Config.key item +:+ "!") >>
    ret conf
  else
    let value_count := length (Config.values item) in
    if bool_decide (value_count < 1) then
      warning ("Must provide a value for configuration key: " +:+ Config.key item +:+ "!") >>
      ret conf
    else if bool_decide (1 < value_count) then
      warning ("Too many values for configuration key: " +:+ Config.key item +:+ "!") >>
      warning ("Expected 1, got " +:+ format_i value_count) >>
      ret conf
    else
      do value <- lift (index (Config.values item) 0);
      ret (<[key_ := value]> conf).

(** [data['conf']] when the loop of [configure] ends. *)
Definition configure_conf (config : Config.Config) : M (gmap string pyval) :=
  for_each (Config.children config) configure_item DEFAULTS.

(** [d.pop(key)] *)
Definition pop {V : Type} (d : gmap string V) (k : string) : result (V * gmap string V) :=
  match d !! k with
  | Some v => Ok (v, delete k d)
  | None => Err (KeyError (Some k))
  end.

Definition configure (fs : filesystem) (config : Config.Config) : M unit :=
  do conf_ <- configure_conf config;
  do popped <- lift (pop conf_ "typesdb");
  do types_ <- lift (parse_types fs popped.1);
  register_init {| conf := popped.2; types := types_; stats := None |}.

(** ** Paths and writers *)

(** A [collectd.Values] object as the write callback receives it. An
    attribute that is missing or [None] is [None] here. *)
Record Values := {
  plugin : string;
  plugin_instance : option string;
  type : option string;
  type_instance : option string;
  values : list number;
}.

(** [filter(None, items)]: the items that are true, so neither [None] nor
    the empty string. *)
Definition truthy (item : option string) : option string :=
  match item with
  | Some "" => None
  | other => other
  end.
Definition filter_none (items : list (option string)) : list string :=
  omap truthy items.

Definition stats_path (v : Values) : string :=
  PyStr.join "." (filter_none
    [Some (plugin v); plugin_instance v; type v; type_instance v]).

(** An attribute used as a string: [None] raises TypeError. *)
Definition as_str (item : option string) : result string :=
  match item with
  | Some s => Ok s
  | None => Err TypeError
  end.

Definition no_client : string := "Statsd client is None, not sending metrics!".

(** The body of the loop of [write_stats]; [base_path] is the loop's
    variable of that name. *)
Definition write_stats_body (v : Values) (types_ : schema)
    (client : option StatsClient) (item : nat * number)
    (base_path : option string) : M (option string) :=
  let '(idx, value) := item in
  let value := py_float value in
  let base_path := match base_path with
                   | None => stats_path v
                   | Some b => b
                   end in
  do path <- (if bool_decide (1 < length (values v)) then
                do sources <- lift (getitem types_ (type v));
                do source <- lift (index sources idx);
                do name <- lift (getitem source (Some "name"));
                ret (PyStr.join "." [base_path; name])
              else ret base_path);
  info (plugin v) path value >>
  match client with
  | Some c => gauge c path value >> ret (Some base_path)
  | None => warning no_client >> raise (RuntimeError no_client)
  end.

Definition write_stats (v : Values) (types_ : schema)
    (base_path : option string) (client : option StatsClient) : M unit :=
  for_each (enumerate (values v)) (write_stats_body v types_ client) base_path >>
  ret tt.

Definition write_interface (v : Values) (types_ : schema)
    (client : option StatsClient) : M unit :=
  do type_ <- lift (as_str (type v));
  let path := PyStr.join "." [stats_path v; PyStr.drop 3 type_] in
  write_stats v types_ (Some path) client.

Definition write_apache_worker_memory_body (v : Values)
    (client : option StatsClient) (item : nat * number) (_ : unit) : M unit :=
  let '(idx, value) := item in
  do instance <- lift (as_str (plugin_instance v));
  let path := PyStr.join "." [plugin v; instance] in
  info (plugin v) path value >>
  match client with
  | Some c => timing c path value
  | None => warning no_client >> raise (RuntimeError no_client)
  end.

Definition write_apache_worker_memory (v : Values) (types_ : schema)
    (client : option StatsClient) : M unit :=
  for_each (enumerate (values v)) (write_apache_worker_memory_body v client) tt.

(** A writer as [statsd_write] calls it: [writer(values, types, client=...)]. *)
Definition writer := Values -> schema -> option StatsClient -> M unit.

(** [globals().get('write_%s' % plugin, write_stats)]: the module's globals
    of that form are the three writers. *)
Definition get_stats_writer (plugin_ : string) : writer :=
  if bool_decide (plugin_ = "interface") then write_interface
  else if bool_decide (plugin_ = "apache_worker_memory") then write_apache_worker_memory
  else fun v types_ client => write_stats v types_ None client.

(** [data['stats']] is the client that [initialize] stored; without that
    entry the subscript raises KeyError. *)
Definition statsd_write (v : Values) (data : Data) : M unit :=
  match stats data with
  | Some client => get_stats_writer (plugin v) v (types data) (Some client)
  | None => raise (KeyError (Some "stats"))
  end.

(** * The vocabulary of the statements *)

(** ** Worlds and what the writers add to them *)

(** The world [w] after the log lines [l] and the client calls [ms]. *)
Definition emit (w : world) (l : list log_entry) (ms : list metric) : world :=
  {| log := log w ++ l; sent := sent w ++ ms; init_callbacks := init_callbacks w |}.

(** The name a data source carries, for the paths below. *)
Definition source_name (d : descriptor) : string := default "" (d !! "name").

(** A data source with a [name] key. *)
Definition has_name (d : descriptor) : Prop := is_Some (d !! "name").

(** The gauge and the log line of value [x] under data source [d]. *)
Definition gauge_of (base : string) (d : descriptor) (x : number) : metric :=
  Gauge (PyStr.join "." [base; source_name d]) (py_float x).
Definition info_of (p base : string) (d : descriptor) (x : number) : log_entry :=
  LogInfo p (PyStr.join "." [base; source_name d]) (py_float x).

(** The base path of [write_stats] once its loop has begun. *)
Definition base_of (v : Values) (base_path : option string) : string :=
  match base_path with
  | None => stats_path v
  | Some b => b
  end.

(** ** Lines, tokens and options *)

(** A line is skipped when it is blank or its first character that is not
    whitespace is [#]. *)
Definition skipped (line : string) : bool :=
  PyStr.all_space line || bool_decide (PyStr.first_nonspace line = Some "#"%char).

(** The four options. *)
Definition options : list string := ["host"; "port"; "prefix"; "typesdb"].

(** What an item supplies: its value, when its key is one of the options
    whatever the case of its letters, and it has exactly one value. *)
Definition supplied_value (item : Config.Item) : option pyval :=
  if bool_decide (PyStr.lower (Config.key item) ∈ options) then
    match Config.values item with
    | [value] => Some value
    | _ => None
    end
  else None.

(** The values supplied for option [k], in the order of the items. *)
Definition supplied (k : string) (items : list Config.Item) : list pyval :=
  omap (fun item => if bool_decide (PyStr.lower (Config.key item) = k)
                    then supplied_value item else None) items.

(** The log lines an item causes. *)
Definition item_log (item : Config.Item) : list log_entry :=
  log (configure_item item DEFAULTS world0).2.

Definition is_warning (e : log_entry) : Prop :=
  match e with
  | LogWarning _ => True
  | LogInfo _ _ _ => False
  end.

(** ** Samples, schemas and files of the scenarios *)

Definition if_octets_sample : Values :=
  {| plugin := "interface"; plugin_instance := Some "eth0";
     type := Some "if_octets"; type_instance := None;
     values := [PyInt 10; PyInt 20] |}.

Definition if_octets_types : schema :=
  dict [("if_octets", parse_sources "rx:DERIVE:0:U, tx:DERIVE:0:U")].

(** The components a sample supplies, in the order of the path. *)
Definition present (v : Values) : list string :=
  omap id [Some (plugin v); plugin_instance v; type v; type_instance v].

(** The path as C2 words it: every supplied component kept, the empty
    string too. *)
Definition joined_present (v : Values) : string := PyStr.join "." (present v).

Definition empty_instance_sample : Values :=
  {| plugin := "cpu"; plugin_instance := Some ""; type := Some "cpu";
     type_instance := Some "idle"; values := [] |}.

Definition unknown_type_sample : Values :=
  {| plugin := "disk"; plugin_instance := Some "sda"; type := Some "disk_ops";
     type_instance := None; values := [PyInt 3; PyInt 4] |}.

Definition load_sample : Values :=
  {| plugin := "load"; plugin_instance := None; type := Some "load";
     type_instance := None; values := [PyFloat 1.5] |}.

Definition apache_sample : Values :=
  {| plugin := "apache_worker_memory"; plugin_instance := Some "httpd";
     type := Some "gauge"; type_instance := None;
     values := [PyFloat 512000] |}.

Definition three_values_sample : Values :=
  {| plugin := "interface2"; plugin_instance := Some "eth0";
     type := Some "if_octets"; type_instance := None;
     values := [PyInt 10; PyInt 20; PyInt 30] |}.

Definition kinds : list string := ["ABSOLUTE"; "COUNTER"; "DERIVE"; "GAUGE"].

(** A token as C3 wants it: four fields, the second one of the kinds. *)
Definition well_formed (token : string) : bool :=
  match PyStr.split_on ":"%char token with
  | [_; kind; _; _] => bool_decide (kind ∈ kinds)
  | _ => false
  end.

Definition types_db_sample : list string :=
  ["# a types database"; "load x:GAUGE:0:100"; "   ";
   "load  shortterm:GAUGE:0:5000, midterm:GAUGE:0:5000"; "  # indented";
   "cpu value:DERIVE:0:U"].

(** * Properties *)

(** ** The string functions on examples *)

Example strip_ex : PyStr.strip "  # a comment  " = "# a comment".
Proof. reflexivity. Qed.

Example split1_ex :
  PyStr.split1 "if_octets   rx:DERIVE:0:U, tx:DERIVE:0:U" =
  ["if_octets"; "rx:DERIVE:0:U, tx:DERIVE:0:U"].
Proof. reflexivity. Qed.

Example split1_one : PyStr.split1 "lonely" = ["lonely"].
Proof. reflexivity. Qed.

Example split_ex : PyStr.split " a:b  c d " = ["a:b"; "c"; "d"].
Proof. reflexivity. Qed.

Example split_on_ex : PyStr.split_on ":"%char "a::b:" = ["a"; ""; "b"; ""].
Proof. reflexivity. Qed.

Example lower_ex : PyStr.lower "TypesDB" = "typesdb".
Proof. reflexivity. Qed.

Example join_ex : PyStr.join "." ["cpu"; "0"; "idle"] = "cpu.0.idle".
Proof. reflexivity. Qed.

Example parse_sources_ex :
  parse_sources "a:GAUGE:0:100,b:COUNTER:U:U" =
  [dict [("name", "a"); ("type", "GAUGE"); ("min", "0"); ("max", "100")];
   dict [("name", "b"); ("type", "COUNTER"); ("min", "U"); ("max", "U")]].
Proof. by vm_compute. Qed.

Example stats_path_ex :
  stats_path {| plugin := "cpu"; plugin_instance := Some "0"; type := Some "cpu";
                type_instance := Some "idle"; values := [] |} = "cpu.0.cpu.idle" /\
  stats_path {| plugin := "cpu"; plugin_instance := None; type := Some "cpu";
                type_instance := Some "idle"; values := [] |} = "cpu.cpu.idle".
Proof. by split. Qed.

(** ** The world after more log lines and client calls *)

Lemma emit_nil w : emit w [] [] = w.
Proof. destruct w; unfold emit; simpl. by rewrite !app_nil_r. Qed.

Lemma emit_emit w l1 s1 l2 s2 :
  emit (emit w l1 s1) l2 s2 = emit w (l1 ++ l2) (s1 ++ s2).
Proof. unfold emit; simpl. by rewrite !app_assoc. Qed.

Lemma info_run p path x w : info p path x w = (Ok tt, emit w [LogInfo p path x] []).
Proof. unfold info, emit. by rewrite app_nil_r. Qed.

Lemma warning_run msg w : warning msg w = (Ok tt, emit w [LogWarning msg] []).
Proof. unfold warning, emit. by rewrite app_nil_r. Qed.

Lemma send_run m w : send m w = (Ok tt, emit w [] [m]).
Proof. unfold send, emit. by rewrite app_nil_r. Qed.

Lemma sent_emit w l ms : sent (emit w l ms) = sent w ++ ms.
Proof. done. Qed.

Lemma log_emit w l ms : log (emit w l ms) = log w ++ l.
Proof. done. Qed.

(** ** The loop of [write_stats] *)

Section write_stats_loop.
Variables (v : Values) (types_ : schema) (c : StatsClient).
Variables (t : string) (ds : list descriptor).
Hypothesis Hmany : 1 < length (values v).
Hypothesis Htype : type v = Some t.
Hypothesis Hentry : types_ !! t = Some ds.

Lemma write_stats_body_many i x bp w :
  write_stats_body v types_ (Some c) (i, x) bp w =
  match ds !! i with
  | Some d =>
      match d !! "name" with
      | Some _ =>
          (Ok (Some (base_of v bp)),
           emit w [info_of (plugin v) (base_of v bp) d x] [gauge_of (base_of v bp) d x])
      | None => (Err (KeyError (Some "name")), w)
      end
  | None => (Err IndexError, w)
  end.
Proof.
  unfold write_stats_body. rewrite bool_decide_eq_true_2 by done.
  rewrite Htype. unfold bind, lift, getitem, index. rewrite Hentry.
  destruct (ds !! i) as [d|]; [|done].
  unfold info_of, gauge_of, source_name.
  destruct (d !! "name") as [n|]; [|done]. done.
Qed.

(** The loop from index [i] on, over the values [xs] still to write and the
    data sources [drop i ds] still to use: a gauge per value while the data
    sources last, then IndexError if a value is left over. *)
Lemma write_stats_loop_many xs : forall i bp w,
  Forall has_name (drop i ds) ->
  for_each (enumerate_from i xs) (write_stats_body v types_ (Some c)) bp w =
  (if bool_decide (length xs <= length (drop i ds))
   then Ok (match xs with [] => bp | _ => Some (base_of v bp) end)
   else Err IndexError,
   emit w (zip_with (info_of (plugin v) (base_of v bp)) (drop i ds) xs)
          (zip_with (gauge_of (base_of v bp)) (drop i ds) xs)).
Proof.
  induction xs as [|x xs IH]; intros i bp w Hn.
  - cbn [enumerate_from for_each]. rewrite bool_decide_eq_true_2 by (simpl; lia).
    rewrite !zip_with_nil_r, emit_nil. done.
  - cbn [enumerate_from for_each]. unfold bind at 1.
    rewrite write_stats_body_many.
    destruct (ds !! i) as [d|] eqn:Hd.
    + rewrite (drop_S _ _ _ Hd) in Hn |- *.
      apply Forall_cons in Hn as [[n Hname] Hn]. rewrite Hname.
      rewrite IH by done. cbn [zip_with base_of length].
      rewrite emit_emit. f_equal.
      case_bool_decide; case_bool_decide; try lia; [|done].
      by destruct xs.
    + apply lookup_ge_None in Hd. rewrite (drop_ge _ _ Hd).
      cbn [zip_with length]. rewrite bool_decide_eq_false_2 by lia.
      by rewrite emit_nil.
Qed.

End write_stats_loop.

Lemma write_stats_many v types_ c t ds bp w :
  1 < length (values v) -> type v = Some t -> types_ !! t = Some ds ->
  Forall has_name ds ->
  write_stats v types_ bp (Some c) w =
  (if bool_decide (length (values v) <= length ds) then Ok tt else Err IndexError,
   emit w (zip_with (info_of (plugin v) (base_of v bp)) ds (values v))
          (zip_with (gauge_of (base_of v bp)) ds (values v))).
Proof.
  intros Hmany Htype Hentry Hn. unfold write_stats, enumerate, bind.
  rewrite (write_stats_loop_many v types_ c t ds Hmany Htype Hentry) by done.
  rewrite drop_0. by case_bool_decide.
Qed.

(** With no client the body of the loop raises, and sends nothing. *)
Lemma write_stats_body_no_client v types_ item bp w :
  exists e w', write_stats_body v types_ None item bp w = (Err e, w')
               /\ sent w' = sent w.
Proof.
  destruct item as [i x]. unfold write_stats_body, bind, lift.
  case_bool_decide.
  - destruct (getitem types_ (type v)) as [ds|e]; [|by eauto].
    destruct (index ds i) as [d|e]; [|by eauto].
    destruct (getitem d (Some "name")) as [n|e]; [|by eauto].
    simpl. eauto.
  - simpl. eauto.
Qed.

Lemma write_stats_no_client v types_ bp w :
  values v <> [] ->
  exists e w', write_stats v types_ bp None w = (Err e, w') /\ sent w' = sent w.
Proof.
  intros Hne. unfold write_stats, enumerate.
  destruct (values v) as [|x xs]; [done|].
  cbn [enumerate_from for_each]. unfold bind.
  destruct (write_stats_body_no_client v types_ (0, x) bp w) as (e & w' & -> & Hs).
  eauto.
Qed.

Lemma write_apache_worker_memory_loop v c i xs : forall k w,
  plugin_instance v = Some i ->
  let path := PyStr.join "." [plugin v; i] in
  for_each (enumerate_from k xs) (write_apache_worker_memory_body v (Some c)) tt w =
  (Ok tt, emit w (LogInfo (plugin v) path <$> xs) (Timing path <$> xs)).
Proof.
  induction xs as [|x xs IH]; intros k w Hi path.
  - cbn [enumerate_from for_each fmap list_fmap]. by rewrite emit_nil.
  - cbn [enumerate_from for_each]. unfold bind at 1.
    unfold write_apache_worker_memory_body at 1. rewrite Hi.
    unfold bind, lift, as_str, timing. rewrite info_run, send_run.
    rewrite IH by done. by rewrite !emit_emit.
Qed.

(** ** Dicts built from pairs *)

Lemma dict_app {V} (l1 l2 : list (string * V)) :
  dict (l1 ++ l2) = foldl setitem (dict l1) l2.
Proof. unfold dict. by rewrite foldl_app. Qed.

Lemma foldl_setitem_notin {V} (l : list (string * V)) : forall (m : gmap string V) k,
  k ∉ l.*1 -> foldl setitem m l !! k = m !! k.
Proof.
  induction l as [|[k' v'] l IH]; intros m k Hk; [done|].
  simpl in *. apply not_elem_of_cons in Hk as [Hne Hk].
  rewrite IH by done. unfold setitem. by rewrite lookup_insert_ne.
Qed.

(** Last wins: the pair after which the key does not come again. *)
Lemma dict_last_wins {V} (l1 l2 : list (string * V)) k x :
  k ∉ l2.*1 -> dict (l1 ++ (k, x) :: l2) !! k = Some x.
Proof.
  intros Hk. rewrite dict_app. simpl. rewrite foldl_setitem_notin by done.
  unfold setitem. by rewrite lookup_insert_eq.
Qed.

(** ** A data source token *)

Lemma descriptor_lookup (parts : list string) :
  let d := dict (zip fields parts) in
  d !! "name" = parts !! 0 /\ d !! "type" = parts !! 1 /\
  d !! "min" = parts !! 2 /\ d !! "max" = parts !! 3 /\
  (forall k, k ∉ fields -> d !! k = None).
Proof.
  unfold fields, dict, setitem.
  destruct parts as [|a [|b [|c [|d parts]]]]; simpl;
    (split_and!; [done..|]); intros k Hk;
    rewrite !not_elem_of_cons in Hk; destruct Hk as (?&?&?&?&_);
    by simplify_map_eq.
Qed.

Lemma split_on_nonempty sep s : exists p ps, PyStr.split_on sep s = p :: ps.
Proof.
  induction s as [|c s (p & ps & IH)]; simpl; [by eauto|].
  case_decide; [by eauto|]. rewrite IH. eauto.
Qed.

(** Every data source that [parse_sources] builds has a name. *)
Lemma parse_sources_named sources : Forall has_name (parse_sources sources).
Proof.
  unfold parse_sources. apply Forall_fmap, Forall_forall. intros tok _.
  unfold has_name.
  destruct (descriptor_lookup (PyStr.split_on ":"%char tok)) as [Hname _].
  cbv zeta in Hname. unfold compose. rewrite Hname.
  destruct (split_on_nonempty ":"%char tok) as (p & ps & ->). by eexists.
Qed.

(** ** Lines that are skipped *)

Lemma all_space_lstrip s : PyStr.all_space (PyStr.lstrip s) = PyStr.all_space s.
Proof.
  induction s as [|c s IH]; [done|]. simpl.
  destruct (PyStr.isspace c) eqn:Hc; simpl; [done|]. by rewrite Hc.
Qed.

Lemma lstrip_head s c s' : PyStr.lstrip s = String c s' -> PyStr.isspace c = false.
Proof.
  induction s as [|a s IH]; [done|]. simpl.
  destruct (PyStr.isspace a) eqn:Ha; [done|]. by intros [= <- _].
Qed.

Lemma keep_line_strip line : keep_line (PyStr.strip line) = negb (skipped line).
Proof.
  unfold skipped, PyStr.strip, PyStr.first_nonspace.
  rewrite <- (all_space_lstrip line).
  destruct (PyStr.lstrip line) as [|c s'] eqn:Hl; [done|].
  apply lstrip_head in Hl. cbn [PyStr.rstrip PyStr.all_space]. rewrite Hl.
  unfold keep_line. cbn [andb orb PyStr.startswith].
  rewrite bool_decide_eq_false_2 by done. simpl.
  case_decide; case_bool_decide; naive_solver.
Qed.

Lemma filter_keep_skipped (lines : list string) :
  filter (fun line => keep_line line = true)
    (PyStr.strip <$> filter (fun line => skipped line = false) lines) =
  filter (fun line => keep_line line = true) (PyStr.strip <$> lines).
Proof.
  induction lines as [|l lines IH]; [done|].
  rewrite fmap_cons, !filter_cons. pose proof (keep_line_strip l) as Hk.
  destruct (skipped l) eqn:Hs; simpl in Hk.
  - rewrite decide_False by done. rewrite decide_False by (by rewrite Hk). done.
  - rewrite decide_True by done. rewrite fmap_cons, filter_cons.
    rewrite !decide_True by done. by rewrite IH.
Qed.

(** ** The pairs of [parse_types] *)

Lemma spec_pairs_app (a b : list (list string)) :
  spec_pairs (a ++ b) =
  match spec_pairs a with
  | Err e => Err e
  | Ok pa => match spec_pairs b with
             | Err e => Err e
             | Ok pb => Ok (pa ++ pb)
             end
  end.
Proof.
  induction a as [|spec a IH]; simpl.
  - by destruct (spec_pairs b).
  - destruct (unpack spec) as [[name sources]|e]; [|done].
    rewrite IH. destruct (spec_pairs a); [|done]. by destruct (spec_pairs b).
Qed.

Lemma spec_pairs_keys specs : forall ps k,
  spec_pairs specs = Ok ps -> k ∈ ps.*1 ->
  exists spec, spec ∈ specs /\ head spec = Some k.
Proof.
  induction specs as [|spec specs IH]; intros ps k; simpl.
  - intros [= <-]. by intros ?%elem_of_nil.
  - destruct (unpack spec) as [[name sources]|e] eqn:Hu; [|done].
    destruct (spec_pairs specs) as [ps'|e]; [|done].
    intros [= <-]. simpl. intros [->|Hk]%elem_of_cons.
    + exists spec. split; [left|].
      destruct spec as [|? [|? [|]]]; simplify_eq/=; done.
    + destruct (IH ps' k eq_refl Hk) as (s & Hs & Hh).
      exists s. split; [by right|done].
Qed.

Lemma spec_pairs_all_two specs :
  Forall (fun spec => length spec = 2) specs -> exists ps, spec_pairs specs = Ok ps.
Proof.
  induction 1 as [|spec specs Hl _ [ps IH]]; simpl; [by eauto|].
  destruct spec as [|? [|? [|]]]; simplify_eq/=. rewrite IH. eauto.
Qed.

Lemma foldl_setitem_Some {V} (l : list (string * V)) :
  forall (m : gmap string V) k x,
  foldl setitem m l !! k = Some x -> (k, x) ∈ l \/ m !! k = Some x.
Proof.
  induction l as [|[k' x'] l IH]; intros m k x; simpl; [by right|].
  intros [Hin|Hm]%IH; [left; by right|].
  unfold setitem in Hm. simpl in Hm.
  apply lookup_insert_Some in Hm as [[-> ->]|[_ Hm]]; [left; left|by right].
Qed.

Lemma dict_Some {V} (l : list (string * V)) k x :
  dict l !! k = Some x -> (k, x) ∈ l.
Proof. by intros [?|?]%foldl_setitem_Some. Qed.

Lemma spec_pairs_values specs : forall ps k ds,
  spec_pairs specs = Ok ps -> (k, ds) ∈ ps ->
  exists sources, ds = parse_sources sources.
Proof.
  induction specs as [|spec specs IH]; intros ps k ds; simpl.
  - intros [= <-]. by intros ?%elem_of_nil.
  - destruct (unpack spec) as [[name sources]|e]; [|done].
    destruct (spec_pairs specs) as [ps'|e]; [|done].
    intros [= <-]. intros [[= -> ->]|Hin]%elem_of_cons; eauto.
Qed.

(** Every data source of a parsed types database has a name. *)
Lemma parse_types_named (fs : filesystem) (path : pyval) (m : schema) t ds :
  parse_types fs path = Ok m -> m !! t = Some ds -> Forall has_name ds.
Proof.
  unfold parse_types, parse_lines. destruct (fs path) as [lines|e]; [|done].
  destruct (spec_pairs _) as [ps|e] eqn:Hps; [|done].
  intros [= <-] Hm%dict_Some.
  destruct (spec_pairs_values _ _ _ _ Hps Hm) as [sources ->].
  apply parse_sources_named.
Qed.

(** ** Configuration items *)

Lemma DEFAULTS_None k : DEFAULTS !! k = None <-> k ∉ options.
Proof.
  unfold DEFAULTS, options. rewrite !lookup_insert_None, lookup_empty.
  rewrite !not_elem_of_cons, elem_of_nil. intuition congruence.
Qed.

Lemma configure_item_run item (conf_ : gmap string pyval) w :
  configure_item item conf_ w =
  (Ok (match supplied_value item with
       | Some value => <[PyStr.lower (Config.key item) := value]> conf_
       | None => conf_
       end),
   emit w (item_log item) []).
Proof.
  unfold item_log, supplied_value, configure_item.
  destruct (decide (PyStr.lower (Config.key item) ∈ options)) as [Hk|Hk].
  - rewrite (bool_decide_eq_false_2 (DEFAULTS !! _ = None))
      by (rewrite DEFAULTS_None; tauto).
    rewrite (bool_decide_eq_true_2 _ Hk).
    destruct (Config.values item) as [|value [|value' vs]]; simpl.
    + unfold bind, ret. rewrite !warning_run. done.
    + unfold bind, ret, lift. simpl. by rewrite emit_nil.
    + unfold bind, ret. rewrite !warning_run, emit_emit. done.
  - rewrite (bool_decide_eq_true_2 (DEFAULTS !! _ = None))
      by (by rewrite DEFAULTS_None).
    rewrite (bool_decide_eq_false_2 _ Hk).
    unfold bind, ret. rewrite !warning_run. done.
Qed.

Lemma item_log_supplied item :
  match supplied_value item with
  | Some _ => item_log item = []
  | None => item_log item <> [] /\ Forall is_warning (item_log item)
  end.
Proof.
  unfold item_log, supplied_value, configure_item.
  destruct (decide (PyStr.lower (Config.key item) ∈ options)) as [Hk|Hk].
  - rewrite (bool_decide_eq_false_2 (DEFAULTS !! _ = None))
      by (rewrite DEFAULTS_None; tauto).
    rewrite (bool_decide_eq_true_2 _ Hk).
    destruct (Config.values item) as [|value [|value' vs]]; simpl;
      [split; [done|by repeat constructor] | done
      | split; [done|by repeat constructor]].
  - rewrite (bool_decide_eq_true_2 (DEFAULTS !! _ = None))
      by (by rewrite DEFAULTS_None).
    rewrite (bool_decide_eq_false_2 _ Hk). simpl.
    split; [done|by repeat constructor].
Qed.

(** The loop of [configure] from any dict [conf_]: it never raises, each
    key ends with the last value supplied for it, or else keeps what it
    had, and the log grows by each item's lines. *)
Lemma configure_loop items : forall (conf_ : gmap string pyval) w,
  exists conf',
    for_each items configure_item conf_ w =
      (Ok conf', emit w (items ≫= item_log) []) /\
    forall k, conf' !! k =
      match last (supplied k items) with
      | Some value => Some value
      | None => conf_ !! k
      end.
Proof.
  induction items as [|item items IH]; intros conf_ w.
  - exists conf_. cbn [for_each]. unfold ret. by rewrite emit_nil.
  - cbn [for_each]. unfold bind at 1. rewrite configure_item_run.
    edestruct IH as (conf' & -> & Hl). exists conf'. split.
    + rewrite emit_emit. done.
    + intros k. rewrite Hl. unfold supplied. cbn [omap list_omap].
      fold (supplied k items).
      destruct (supplied_value item) as [value|] eqn:Hv.
      * case_bool_decide as Hk.
        -- rewrite last_cons. destruct (last (supplied k items)); [done|].
           subst k. by rewrite lookup_insert_eq.
        -- destruct (last (supplied k items)); [done|].
           by rewrite lookup_insert_ne.
      * by case_bool_decide.
Qed.

(** * The claims *)

(** ** C1: the interface writer *)

(** C1, as stated, fails: on the sample of the claim, with a schema whose
    data sources for [if_octets] are named [rx] and [tx], the interface
    writer sends the gauges [interface.eth0.if_octets.octets.rx] and
    [interface.eth0.if_octets.octets.tx], not [interface.eth0.octets.rx]
    and [interface.eth0.octets.tx]. *)
Lemma C1_counterexample :
  (source_name <$> default [] (if_octets_types !! "if_octets")) = ["rx"; "tx"] /\
  sent (write_interface if_octets_sample if_octets_types (Some Client) world0).2 =
    [Gauge "interface.eth0.if_octets.octets.rx" (PyFloat 10);
     Gauge "interface.eth0.if_octets.octets.tx" (PyFloat 20)] /\
  sent (write_interface if_octets_sample if_octets_types (Some Client) world0).2 <>
    [Gauge "interface.eth0.octets.rx" (PyFloat 10);
     Gauge "interface.eth0.octets.tx" (PyFloat 20)].
Proof.
  split; [by vm_compute|]. split; [by vm_compute|].
  vm_compute. discriminate.
Qed.

(** C1, amended: the interface writer's base path is the whole path of
    [stats_path], metric-set name included, with the metric-set name less
    its first three characters appended. For the sample of the claim and a
    schema whose data sources for [if_octets] are named [rx] and [tx] it
    sends exactly the gauges [interface.eth0.if_octets.octets.rx] = 10.0
    and [interface.eth0.if_octets.octets.tx] = 20.0. *)
Theorem C1_interface_writer (types_ : schema) (d1 d2 : descriptor) c w :
  types_ !! "if_octets" = Some [d1; d2] ->
  d1 !! "name" = Some "rx" ->
  d2 !! "name" = Some "tx" ->
  write_interface if_octets_sample types_ (Some c) w =
    (Ok tt,
     emit w
       [LogInfo "interface" "interface.eth0.if_octets.octets.rx" (PyFloat 10);
        LogInfo "interface" "interface.eth0.if_octets.octets.tx" (PyFloat 20)]
       [Gauge "interface.eth0.if_octets.octets.rx" (PyFloat 10);
        Gauge "interface.eth0.if_octets.octets.tx" (PyFloat 20)]) /\
  stats_path if_octets_sample = "interface.eth0.if_octets" /\
  forall (v : Values) (ty : string) (types' : schema) client,
    type v = Some ty ->
    write_interface v types' client =
    write_stats v types' (Some (stats_path v +:+ "." +:+ PyStr.drop 3 ty)) client.
Proof.
  intros Hentry H1 H2. split_and!.
  - unfold write_interface, bind, lift. cbn [type if_octets_sample as_str].
    rewrite (write_stats_many _ _ c "if_octets" [d1; d2]); try done.
    + cbn [values if_octets_sample zip_with base_of].
      unfold info_of, gauge_of, source_name. rewrite H1, H2. done.
    + cbn. lia.
    + repeat constructor; unfold has_name; eauto.
  - done.
  - intros v ty types' client Hty. unfold write_interface. by rewrite Hty.
Qed.

Lemma C1_interface_writer_witness :
  write_interface if_octets_sample if_octets_types (Some Client) world0 =
    (Ok tt,
     emit world0
       [LogInfo "interface" "interface.eth0.if_octets.octets.rx" (PyFloat 10);
        LogInfo "interface" "interface.eth0.if_octets.octets.tx" (PyFloat 20)]
       [Gauge "interface.eth0.if_octets.octets.rx" (PyFloat 10);
        Gauge "interface.eth0.if_octets.octets.tx" (PyFloat 20)]).
Proof.
  refine (proj1 (C1_interface_writer if_octets_types
    (dict (zip fields ["rx"; "DERIVE"; "0"; "U"]))
    (dict (zip fields ["tx"; "DERIVE"; "0"; "U"])) Client world0 _ _ _));
    vm_compute; reflexivity.
Defined.

(** ** C2: the path builder *)

(** C2, as stated, fails: a plugin instance that is supplied and is the
    empty string is left out of the path like one that is not supplied. *)
Lemma C2_counterexample :
  stats_path empty_instance_sample = "cpu.cpu.idle" /\
  joined_present empty_instance_sample = "cpu..cpu.idle" /\
  stats_path empty_instance_sample <> joined_present empty_instance_sample.
Proof. split_and!; [done|done|]. vm_compute. discriminate. Qed.

(** C2, amended: for every sample the path joins with [.] the plugin name,
    the plugin instance, the metric-set name and the type instance, in that
    order, leaving out each component that is not supplied or is the empty
    string. *)
Theorem C2_stats_path (v : Values) :
  stats_path v = PyStr.join "." (filter (fun s => s <> "") (present v)).
Proof.
  unfold stats_path, present, filter_none. destruct v as [p pi ty ti xs].
  cbn [plugin plugin_instance type type_instance].
  destruct p as [|? ?], pi as [[|? ?]|], ty as [[|? ?]|], ti as [[|? ?]|];
    reflexivity.
Qed.

(** ** C4: a sample of several values whose metric-set has no entry *)

(** C4: for every sample of more than one value whose metric-set name has
    no entry in the schema, the default writer raises KeyError (the schema
    lookup error) and leaves the world as it was: nothing is sent and
    nothing is logged, with or without a client. *)
Theorem C4_missing_entry (v : Values) (types_ : schema) base_path client w :
  1 < length (values v) ->
  (forall t, type v = Some t -> types_ !! t = None) ->
  write_stats v types_ base_path client w = (Err (KeyError (type v)), w).
Proof.
  intros Hmany Hnone. unfold write_stats, enumerate.
  destruct (values v) as [|x xs] eqn:Hv; [simpl in Hmany; lia|].
  cbn [enumerate_from for_each]. unfold bind at 1 2.
  unfold write_stats_body. rewrite Hv.
  rewrite bool_decide_eq_true_2 by done.
  unfold bind at 1 2. unfold lift, getitem.
  destruct (type v) as [t|]; [|done]. by rewrite (Hnone t eq_refl).
Qed.

Lemma C4_missing_entry_witness :
  write_stats unknown_type_sample if_octets_types None (Some Client) world0 =
  (Err (KeyError (Some "disk_ops")), world0).
Proof.
  apply (C4_missing_entry unknown_type_sample if_octets_types None
           (Some Client) world0).
  - simpl. lia.
  - intros t [= <-]. vm_compute. reflexivity.
Defined.

(** ** C5: writing without a client *)

(** C5, as stated, fails: with no client, a sample of two values whose
    metric-set has no entry in the schema makes the default writer raise
    KeyError, the schema lookup error, and not the RuntimeError of the
    missing client. *)
Lemma C5_counterexample :
  write_stats unknown_type_sample if_octets_types None None world0 =
    (Err (KeyError (Some "disk_ops")), world0) /\
  (write_stats unknown_type_sample if_octets_types None None world0).1 <>
    Err (RuntimeError no_client).
Proof. split; [by vm_compute|]. vm_compute. discriminate. Qed.

(** The exception, if any, that stops the default writer while it builds
    the path of the first value: the lookups of [types[values.type]],
    [[0]] and [['name']], made when the sample has more than one value. *)
Definition path_error (v : Values) (types_ : schema) : option exn :=
  if bool_decide (1 < length (values v)) then
    match type v with
    | None => Some (KeyError None)
    | Some t =>
        match types_ !! t with
        | None => Some (KeyError (Some t))
        | Some [] => Some IndexError
        | Some (d :: _) =>
            match d !! "name" with
            | None => Some (KeyError (Some "name"))
            | Some _ => None
            end
        end
    end
  else None.

(** The default writer with no client: the exception of the path of the
    first value, before anything is logged, or else the RuntimeError. *)
Lemma write_stats_no_client_run v (types_ : schema) bp w :
  values v <> [] ->
  match path_error v types_ with
  | Some e => write_stats v types_ bp None w = (Err e, w)
  | None => exists w', write_stats v types_ bp None w =
                         (Err (RuntimeError no_client), w') /\ sent w' = sent w
  end.
Proof.
  intros Hne. unfold path_error, write_stats, enumerate.
  destruct (values v) as [|x xs] eqn:Hv; [done|].
  cbn [enumerate_from for_each]. unfold bind at 1 2.
  unfold write_stats_body. rewrite Hv.
  case_bool_decide.
  - unfold bind, lift, getitem, index, ret.
    destruct (type v) as [t|]; [|done].
    destruct (types_ !! t) as [[|d ds]|]; [done| |done].
    cbn [lookup list_lookup]. destruct (d !! "name") as [name|]; [|done].
    rewrite info_run, warning_run. unfold raise.
    eexists. split; [done|]. by rewrite !sent_emit, !app_nil_r.
  - unfold bind, ret. rewrite info_run, warning_run. unfold raise.
    eexists. split; [done|]. by rewrite !sent_emit, !app_nil_r.
Qed.

(** C5, amended: for every sample with at least one value, each writer
    called with no client raises an exception and sends no metric. The
    exception is the RuntimeError of the missing client whenever the path
    of the first value can be built: for the default writer when the sample
    has one value, or when the schema has a first data source, with a name,
    for the sample's metric-set; for the interface writer when moreover the
    metric-set name is supplied; for the apache_worker_memory writer when
    the plugin instance is supplied. Otherwise the exception of the path is
    raised first, before anything is logged: for the default writer, on a
    sample of more than one value, KeyError of the metric-set name when the
    schema has no entry for it, IndexError when the entry is empty and
    KeyError of [name] when its first data source has no name; for the
    interface writer TypeError when the metric-set name is not supplied,
    and else the same exceptions; for the apache_worker_memory writer
    TypeError when the plugin instance is not supplied. *)
Theorem C5_no_client (v : Values) (types_ : schema) w :
  values v <> [] ->
  (forall plugin_, exists e w',
     get_stats_writer plugin_ v types_ None w = (Err e, w') /\ sent w' = sent w) /\
  (forall base_path,
     length (values v) = 1 \/
       (exists t d ds name, type v = Some t /\ types_ !! t = Some (d :: ds)
                            /\ d !! "name" = Some name) ->
     exists w', write_stats v types_ base_path None w =
                  (Err (RuntimeError no_client), w') /\ sent w' = sent w) /\
  (length (values v) = 1 \/
     (exists t d ds name, type v = Some t /\ types_ !! t = Some (d :: ds)
                          /\ d !! "name" = Some name) ->
   is_Some (type v) ->
   exists w', write_interface v types_ None w =
                (Err (RuntimeError no_client), w') /\ sent w' = sent w) /\
  (is_Some (plugin_instance v) ->
   exists w', write_apache_worker_memory v types_ None w =
                (Err (RuntimeError no_client), w') /\ sent w' = sent w) /\
  (forall base_path,
     match path_error v types_ with
     | Some e => write_stats v types_ base_path None w = (Err e, w)
     | None => exists w', write_stats v types_ base_path None w =
                            (Err (RuntimeError no_client), w') /\ sent w' = sent w
     end) /\
  match type v with
  | None => write_interface v types_ None w = (Err TypeError, w)
  | Some _ =>
      match path_error v types_ with
      | Some e => write_interface v types_ None w = (Err e, w)
      | None => exists w', write_interface v types_ None w =
                             (Err (RuntimeError no_client), w') /\ sent w' = sent w
      end
  end /\
  match plugin_instance v with
  | None => write_apache_worker_memory v types_ None w = (Err TypeError, w)
  | Some _ => exists w', write_apache_worker_memory v types_ None w =
                           (Err (RuntimeError no_client), w') /\ sent w' = sent w
  end.
Proof.
  intros Hne.
  assert (Hstats : forall base_path,
     length (values v) = 1 \/
       (exists t d ds name, type v = Some t /\ types_ !! t = Some (d :: ds)
                            /\ d !! "name" = Some name) ->
     exists w', write_stats v types_ base_path None w =
                  (Err (RuntimeError no_client), w') /\ sent w' = sent w).
  { intros bp Hpath. unfold write_stats, enumerate.
    destruct (values v) as [|x xs] eqn:Hv; [done|].
    cbn [enumerate_from for_each]. unfold bind at 1 2.
    unfold write_stats_body. rewrite Hv.
    destruct Hpath as [Hone|(t & d & ds & name & Ht & Hds & Hname)].
    - rewrite bool_decide_eq_false_2 by (rewrite Hone; lia).
      unfold bind, ret. rewrite info_run, warning_run. unfold raise.
      eexists. split; [done|]. by rewrite !sent_emit, !app_nil_r.
    - case_bool_decide.
      + rewrite Ht. unfold bind, lift, getitem, index, ret.
        rewrite Hds. cbn [lookup list_lookup]. rewrite Hname.
        rewrite info_run, warning_run. unfold raise.
        eexists. split; [done|]. by rewrite !sent_emit, !app_nil_r.
      + unfold bind, ret. rewrite info_run, warning_run. unfold raise.
        eexists. split; [done|]. by rewrite !sent_emit, !app_nil_r. }
  assert (Hapache : forall i, plugin_instance v = Some i ->
     exists w', write_apache_worker_memory v types_ None w =
                  (Err (RuntimeError no_client), w') /\ sent w' = sent w).
  { intros i Hi. unfold write_apache_worker_memory, enumerate.
    destruct (values v) as [|x xs] eqn:Hv; [done|].
    cbn [enumerate_from for_each]. unfold bind at 1.
    unfold write_apache_worker_memory_body. rewrite Hi.
    unfold bind, lift, as_str. rewrite info_run, warning_run. unfold raise.
    eexists. split; [done|]. by rewrite !sent_emit, !app_nil_r. }
  split_and!.
  - intros plugin_. unfold get_stats_writer.
    repeat case_bool_decide.
    + unfold write_interface, bind, lift.
      destruct (as_str (type v)) as [ty|e]; [|by eauto].
      by apply write_stats_no_client.
    + destruct (plugin_instance v) as [i|] eqn:Hi.
      * destruct (Hapache i eq_refl) as (w' & -> & Hs). eauto.
      * unfold write_apache_worker_memory, enumerate.
        destruct (values v) as [|x xs] eqn:Hv; [done|].
        cbn [enumerate_from for_each]. unfold bind at 1.
        unfold write_apache_worker_memory_body. rewrite Hi.
        unfold bind, lift, as_str. eauto.
    + by apply write_stats_no_client.
  - done.
  - intros Hpath [ty Hty]. unfold write_interface, bind, lift.
    rewrite Hty. cbn [as_str]. by apply Hstats.
  - intros [i Hi]. by apply (Hapache i).
  - intros bp. by apply write_stats_no_client_run.
  - destruct (type v) as [ty|] eqn:Hty.
    + unfold write_interface, bind, lift. rewrite Hty. cbn [as_str].
      by apply write_stats_no_client_run.
    + unfold write_interface, bind, lift. by rewrite Hty.
  - destruct (plugin_instance v) as [i|] eqn:Hi.
    + by apply (Hapache i).
    + unfold write_apache_worker_memory, enumerate.
      destruct (values v) as [|x xs] eqn:Hv; [done|].
      cbn [enumerate_from for_each]. unfold bind at 1.
      unfold write_apache_worker_memory_body. by rewrite Hi.
Qed.

Lemma C5_no_client_witness :
  (exists w', write_stats load_sample if_octets_types None None world0 =
                (Err (RuntimeError no_client), w') /\ sent w' = sent world0) /\
  write_stats unknown_type_sample if_octets_types None None world0 =
    (Err (KeyError (Some "disk_ops")), world0).
Proof.
  split.
  - apply (proj1 (proj2 (C5_no_client load_sample if_octets_types world0
                           ltac:(simpl; discriminate)))).
    left. reflexivity.
  - exact (proj1 (proj2 (proj2 (proj2 (proj2
      (C5_no_client unknown_type_sample if_octets_types world0
         ltac:(simpl; discriminate)))))) None).
Defined.

(** ** C6: the apache_worker_memory writer *)

(** C6: the apache_worker_memory writer gives the same result whatever the
    schema; every metric it sends is a timing, never a gauge; with a client
    and a plugin instance it sends each value, as it is, as a timing at the
    path [plugin.plugin_instance]. The plugin [apache_worker_memory] is
    dispatched to it, and for plugin instance [httpd] and the value
    512000.0 it sends the timing [apache_worker_memory.httpd] = 512000.0.
    The value is sent unconverted: a sample whose value is the integer
    512000 sends the integer, which is the same number. *)
Theorem C6_apache_worker_memory (v : Values) (types_ : schema) w :
  (forall types' client,
     write_apache_worker_memory v types' client w =
     write_apache_worker_memory v types_ client w) /\
  (forall client m,
     m ∈ sent (write_apache_worker_memory v types_ client w).2 ->
     m ∈ sent w \/ exists i x, plugin_instance v = Some i /\ x ∈ values v /\
                               m = Timing (plugin v +:+ "." +:+ i) x) /\
  (forall c i, plugin_instance v = Some i ->
     write_apache_worker_memory v types_ (Some c) w =
     (Ok tt, emit w (LogInfo (plugin v) (plugin v +:+ "." +:+ i) <$> values v)
                    (Timing (plugin v +:+ "." +:+ i) <$> values v))) /\
  statsd_write apache_sample
      {| conf := ∅; types := types_; stats := Some Client |} w =
    (Ok tt, emit w [LogInfo "apache_worker_memory" "apache_worker_memory.httpd"
                      (PyFloat 512000)]
                   [Timing "apache_worker_memory.httpd" (PyFloat 512000)]).
Proof.
  assert (Hok : forall c i, plugin_instance v = Some i ->
     write_apache_worker_memory v types_ (Some c) w =
     (Ok tt, emit w (LogInfo (plugin v) (plugin v +:+ "." +:+ i) <$> values v)
                    (Timing (plugin v +:+ "." +:+ i) <$> values v))).
  { intros c i Hi. unfold write_apache_worker_memory, enumerate.
    by rewrite (write_apache_worker_memory_loop v c i). }
  split_and!.
  - done.
  - intros client m.
    destruct (plugin_instance v) as [i|] eqn:Hi, client as [c|].
    + rewrite (Hok c i eq_refl). cbn [snd]. rewrite sent_emit.
      intros [Hm|Hm]%elem_of_app; [by left|right].
      apply list_elem_of_fmap in Hm as (x & -> & Hx). eauto.
    + unfold write_apache_worker_memory, enumerate.
      destruct (values v) as [|x xs]; [by left|].
      cbn [enumerate_from for_each]. unfold bind at 1.
      unfold write_apache_worker_memory_body. rewrite Hi.
      unfold bind, lift, as_str. rewrite info_run, warning_run. unfold raise.
      cbn [snd]. rewrite !sent_emit, !app_nil_r. by left.
    + unfold write_apache_worker_memory, enumerate.
      destruct (values v) as [|x xs]; [by left|].
      cbn [enumerate_from for_each]. unfold bind at 1.
      unfold write_apache_worker_memory_body. rewrite Hi. by left.
    + unfold write_apache_worker_memory, enumerate.
      destruct (values v) as [|x xs]; [by left|].
      cbn [enumerate_from for_each]. unfold bind at 1.
      unfold write_apache_worker_memory_body. rewrite Hi. by left.
  - done.
  - unfold statsd_write, get_stats_writer. cbn [plugin apache_sample types stats].
    rewrite bool_decide_eq_false_2 by done.
    rewrite bool_decide_eq_true_2 by done.
    unfold write_apache_worker_memory, enumerate.
    by rewrite (write_apache_worker_memory_loop apache_sample Client "httpd").
Qed.

(** ** C7: a sample of one value *)

(** C7: for every sample of exactly one value and every schema, the default
    writer with a client sends one gauge, at the base path with nothing
    appended, of the value as a float; the schema plays no part. For plugin
    [load], metric-set [load], no instances and the value 1.5 the gauge is
    [load.load] = 1.5, also under a schema without [load]. *)
Theorem C7_single_value (p : string) (pi ty ti : option string) (x : number)
    (types_ : schema) c w :
  let v := {| plugin := p; plugin_instance := pi; type := ty;
              type_instance := ti; values := [x] |} in
  write_stats v types_ None (Some c) w =
    (Ok tt, emit w [LogInfo p (stats_path v) (py_float x)]
                   [Gauge (stats_path v) (py_float x)]) /\
  write_stats load_sample ∅ None (Some c) w =
    (Ok tt, emit w [LogInfo "load" "load.load" (PyFloat 1.5)]
                   [Gauge "load.load" (PyFloat 1.5)]).
Proof.
  assert (Hone : forall v (types' : schema) y, values v = [y] ->
    write_stats v types' None (Some c) w =
    (Ok tt, emit w [LogInfo (plugin v) (stats_path v) (py_float y)]
                   [Gauge (stats_path v) (py_float y)])).
  { intros v types' y Hv. unfold write_stats, enumerate. rewrite Hv.
    cbn [enumerate_from for_each]. unfold write_stats_body. rewrite Hv.
    cbn [length]. rewrite bool_decide_eq_false_2 by lia.
    unfold bind, ret, gauge. by rewrite info_run, send_run, emit_emit. }
  split.
  - by apply Hone.
  - by rewrite (Hone load_sample ∅ (PyFloat 1.5)).
Qed.

(** ** C10: fewer data sources than values *)

(** C10: for every sample of more than one value whose metric-set has an
    entry in the schema with fewer data sources than the sample has values,
    the default writer with a client sends a gauge for each leading value
    that has a data source, one per data source and in order, and then
    raises IndexError; the gauges sent before stay sent. *)
Theorem C10_short_entry (v : Values) (types_ : schema) c t
    (ds : list descriptor) w :
  1 < length (values v) ->
  type v = Some t ->
  types_ !! t = Some ds ->
  Forall has_name ds ->
  length ds < length (values v) ->
  write_stats v types_ None (Some c) w =
    (Err IndexError,
     emit w (zip_with (info_of (plugin v) (stats_path v)) ds (values v))
            (zip_with (gauge_of (stats_path v)) ds (values v))) /\
  length (zip_with (gauge_of (stats_path v)) ds (values v)) = length ds /\
  forall i d x, ds !! i = Some d -> values v !! i = Some x ->
    sent (write_stats v types_ None (Some c) w).2 !! (length (sent w) + i) =
    Some (Gauge (stats_path v +:+ "." +:+ source_name d) (py_float x)).
Proof.
  intros Hmany Hty Hentry Hnames Hshort.
  rewrite (write_stats_many v types_ c t ds) by done.
  rewrite bool_decide_eq_false_2 by lia. split_and!.
  - done.
  - rewrite length_zip_with. lia.
  - intros i d x Hd Hx. cbn [snd base_of]. rewrite sent_emit.
    rewrite lookup_app_r by lia.
    replace (length (sent w) + i - length (sent w)) with i by lia.
    rewrite lookup_zip_with, Hd. cbn. rewrite Hx. done.
Qed.

Lemma C10_short_entry_witness :
  write_stats three_values_sample if_octets_types None (Some Client) world0 =
    (Err IndexError,
     emit world0
       [LogInfo "interface2" "interface2.eth0.if_octets.rx" (PyFloat 10);
        LogInfo "interface2" "interface2.eth0.if_octets.tx" (PyFloat 20)]
       [Gauge "interface2.eth0.if_octets.rx" (PyFloat 10);
        Gauge "interface2.eth0.if_octets.tx" (PyFloat 20)]).
Proof.
  refine (proj1 (C10_short_entry three_values_sample if_octets_types Client
    "if_octets" (parse_sources "rx:DERIVE:0:U, tx:DERIVE:0:U") world0
    _ _ _ _ _)).
  - simpl. lia.
  - reflexivity.
  - vm_compute. reflexivity.
  - apply parse_sources_named.
  - vm_compute. lia.
Defined.

(** ** The lines of a name *)

(** The specs of [parse_types]: the fields of the lines that are kept. *)
Lemma elem_of_specs (lines : list string) spec :
  spec ∈ (PyStr.split1 <$> filter (fun line => keep_line line = true)
                            (PyStr.strip <$> lines)) <->
  exists l, l ∈ lines /\ skipped l = false /\ spec = PyStr.split1 (PyStr.strip l).
Proof.
  rewrite list_elem_of_fmap. split.
  - intros (s & -> & [Hk Hs]%list_elem_of_filter).
    apply list_elem_of_fmap in Hs as (l & -> & Hl). exists l.
    rewrite keep_line_strip in Hk. by destruct (skipped l).
  - intros (l & Hl & Hs & ->). exists (PyStr.strip l). split; [done|].
    apply list_elem_of_filter. split; [by rewrite keep_line_strip, Hs|].
    apply list_elem_of_fmap. eauto.
Qed.

(** The entries of a specification. *)
Definition tokens (sources : string) : list string :=
  PyStr.split (PyStr.replace ","%char " "%char sources).

Lemma parse_types_last (fs : filesystem) (path : pyval)
    (before after : list string) (line name sources : string) (m : schema) :
  fs path = Ok (before ++ line :: after) ->
  skipped line = false ->
  PyStr.split1 (PyStr.strip line) = [name; sources] ->
  Forall (fun l => skipped l = false ->
                   head (PyStr.split1 (PyStr.strip l)) <> Some name) after ->
  parse_types fs path = Ok m ->
  m !! name = Some (parse_sources sources).
Proof.
  intros Hfs Hline Hsplit Hafter. unfold parse_types, parse_lines. rewrite Hfs.
  rewrite fmap_app, filter_app, fmap_cons, filter_cons.
  rewrite decide_True by (by rewrite keep_line_strip, Hline).
  rewrite fmap_app, fmap_cons, Hsplit, spec_pairs_app.
  destruct (spec_pairs (PyStr.split1 <$> filter _ (PyStr.strip <$> before)))
    as [pa|e]; [|done].
  cbn [spec_pairs unpack].
  destruct (spec_pairs (PyStr.split1 <$> filter _ (PyStr.strip <$> after)))
    as [pb|e] eqn:Hpb; [|done].
  intros [= <-]. apply dict_last_wins.
  intros (spec & Hspec & Hhead)%(spec_pairs_keys _ _ _ Hpb).
  apply elem_of_specs in Hspec as (l & Hl & Hs & ->).
  rewrite Forall_forall in Hafter. by apply (Hafter l Hl).
Qed.

(** ** C3: data source tokens *)

(** C3, as stated, fails: a line whose tokens have three fields and an
    unknown kind, and five fields, parses without an exception, into a data
    source without [max] and one of the first four fields. *)
Lemma C3_counterexample :
  well_formed "a:BOGUS:0" = false /\
  well_formed "b:GAUGE:0:1:2" = false /\
  parse_lines ["x a:BOGUS:0, b:GAUGE:0:1:2"] =
    Ok (dict [("x", [dict [("name", "a"); ("type", "BOGUS"); ("min", "0")];
                     dict [("name", "b"); ("type", "GAUGE"); ("min", "0");
                           ("max", "1")]])]).
Proof. split_and!; by vm_compute. Qed.

(** What a token leaves in its data source: its colon-delimited fields
    under [name], [type], [min] and [max], in order, as many as it has and
    four at most, and nothing else. *)
Definition token_fields (token : string) (d : descriptor) : Prop :=
  let parts := PyStr.split_on ":"%char token in
  d !! "name" = parts !! 0 /\ d !! "type" = parts !! 1 /\
  d !! "min" = parts !! 2 /\ d !! "max" = parts !! 3 /\
  forall k, k ∉ fields -> d !! k = None.

(** Every entry of a specification gives a data source, in order. *)
Lemma parse_sources_tokens sources :
  Forall2 token_fields (tokens sources) (parse_sources sources).
Proof.
  unfold parse_sources. fold (tokens sources).
  apply Forall2_fmap_r, Forall_Forall2_diag, Forall_forall.
  intros token _. apply descriptor_lookup.
Qed.

(** C3, amended: a data source token is never refused. When every line that
    is not skipped has a second field, parsing the file succeeds, whatever
    its tokens. Every token gives a data source: the last line that defines
    a name maps the name to one data source per token of the line, in the
    order of the tokens, and the data source of a token holds the token's
    first four colon-delimited fields, in order, under [name], [type],
    [min] and [max], as many of them as the token has and no other key,
    the kind as it is written. Conversely every data source of the result
    comes from a token in this way. *)
Theorem C3_tokens_unvalidated (fs : filesystem) (path : pyval)
    (lines : list string) :
  fs path = Ok lines ->
  Forall (fun l => skipped l = false ->
                   length (PyStr.split1 (PyStr.strip l)) = 2) lines ->
  exists m, parse_types fs path = Ok m /\
    (forall name ds d, m !! name = Some ds -> d ∈ ds ->
      exists token, let parts := PyStr.split_on ":"%char token in
        d !! "name" = parts !! 0 /\ d !! "type" = parts !! 1 /\
        d !! "min" = parts !! 2 /\ d !! "max" = parts !! 3 /\
        forall k, k ∉ fields -> d !! k = None) /\
    (forall before line after name sources,
       lines = before ++ line :: after ->
       skipped line = false ->
       PyStr.split1 (PyStr.strip line) = [name; sources] ->
       Forall (fun l => skipped l = false ->
                        head (PyStr.split1 (PyStr.strip l)) <> Some name) after ->
       exists ds, m !! name = Some ds /\
                  Forall2 token_fields (tokens sources) ds) /\
    (forall sources,
       Forall2 token_fields (tokens sources) (parse_sources sources)).
Proof.
  intros Hfs Htwo.
  destruct (spec_pairs_all_two
    (PyStr.split1 <$> filter (fun line => keep_line line = true)
                        (PyStr.strip <$> lines))) as [ps Hps].
  { apply Forall_fmap, Forall_forall. intros s [Hk Hs]%list_elem_of_filter.
    apply list_elem_of_fmap in Hs as (l & -> & Hl).
    rewrite Forall_forall in Htwo. apply (Htwo l Hl).
    rewrite keep_line_strip in Hk. by destruct (skipped l). }
  assert (Hparse : parse_types fs path = Ok (dict ps)).
  { unfold parse_types, parse_lines. by rewrite Hfs, Hps. }
  exists (dict ps). split_and!.
  - done.
  - intros name ds d Hm Hd. apply dict_Some in Hm.
    destruct (spec_pairs_values _ _ _ _ Hps Hm) as [sources ->].
    unfold parse_sources in Hd.
    apply list_elem_of_fmap in Hd as (token & -> & _).
    exists token. apply descriptor_lookup.
  - intros before line after name sources -> Hline Hsplit Hafter.
    exists (parse_sources sources). split; [|apply parse_sources_tokens].
    by apply (parse_types_last fs path before after line name sources).
  - apply parse_sources_tokens.
Qed.

Lemma C3_tokens_unvalidated_witness :
  exists m, parse_types (fun _ => Ok ["# kinds"; "x a:BOGUS:0, b:GAUGE:0:1:2"])
              (PyStr "types.db") = Ok m /\
    (forall name ds d, m !! name = Some ds -> d ∈ ds ->
      exists token, let parts := PyStr.split_on ":"%char token in
        d !! "name" = parts !! 0 /\ d !! "type" = parts !! 1 /\
        d !! "min" = parts !! 2 /\ d !! "max" = parts !! 3 /\
        forall k, k ∉ fields -> d !! k = None) /\
    (forall before line after name sources,
       ["# kinds"; "x a:BOGUS:0, b:GAUGE:0:1:2"] = before ++ line :: after ->
       skipped line = false ->
       PyStr.split1 (PyStr.strip line) = [name; sources] ->
       Forall (fun l => skipped l = false ->
                        head (PyStr.split1 (PyStr.strip l)) <> Some name) after ->
       exists ds, m !! name = Some ds /\
                  Forall2 token_fields (tokens sources) ds) /\
    (forall sources,
       Forall2 token_fields (tokens sources) (parse_sources sources)).
Proof.
  apply (C3_tokens_unvalidated _ _ ["# kinds"; "x a:BOGUS:0, b:GAUGE:0:1:2"]).
  - reflexivity.
  - repeat constructor; vm_compute; congruence.
Defined.

(** ** C8: the configuration *)

Lemma supplied_value_None item :
  supplied_value item = None <->
  PyStr.lower (Config.key item) ∉ options \/ length (Config.values item) <> 1.
Proof.
  unfold supplied_value. case_bool_decide as Hk.
  - destruct (Config.values item) as [|value [|value' vs]]; simpl;
      split; try done; try (intros _; right; lia); intros [?|?]; done.
  - split; [by left|done].
Qed.

(** C8: for every configuration, the loop of [configure] ends without an
    exception with each of [host], [port], [prefix] and [typesdb] holding
    the last value supplied for it by an item whose key is that option,
    whatever the case of its letters, and which has exactly one value, or
    its default ([localhost], 8125, [None], [/usr/share/collectd/types.db])
    when no item supplies one. An item supplies nothing exactly when its
    key is none of the options or it has no value or several; such an item
    logs warnings, at least one, and an item that supplies a value logs
    nothing. [configure] then parses the types database at the value of
    [typesdb] and registers the other three options with the types. *)
Theorem C8_configure (fs : filesystem) (config : Config.Config) w :
  let items := Config.children config in
  let final k d := default d (last (supplied k items)) in
  let w' := emit w (items ≫= item_log) [] in
  exists conf',
    configure_conf config w = (Ok conf', w') /\
    conf' !! "host" = Some (final "host" (PyStr "localhost")) /\
    conf' !! "port" = Some (final "port" (PyNum (PyInt 8125))) /\
    conf' !! "prefix" = Some (final "prefix" PyNone) /\
    conf' !! "typesdb" =
      Some (final "typesdb" (PyStr "/usr/share/collectd/types.db")) /\
    (forall item,
       (supplied_value item = None <->
        PyStr.lower (Config.key item) ∉ options
        \/ length (Config.values item) <> 1) /\
       match supplied_value item with
       | Some _ => item_log item = []
       | None => item_log item <> [] /\ Forall is_warning (item_log item)
       end) /\
    configure fs config w =
      match parse_types fs (final "typesdb" (PyStr "/usr/share/collectd/types.db")) with
      | Ok types_ =>
          register_init {| conf := delete "typesdb" conf'; types := types_;
                           stats := None |} w'
      | Err e => (Err e, w')
      end.
Proof.
  intros items final w'. unfold configure, configure_conf.
  destruct (configure_loop items DEFAULTS w) as (conf' & Hrun & Hl).
  assert (Hfinal : forall k d, DEFAULTS !! k = Some d ->
                               conf' !! k = Some (final k d)).
  { intros k d Hd. rewrite Hl, Hd. unfold final.
    by destruct (last (supplied k items)). }
  exists conf'. split_and!; [done|by apply Hfinal..| |].
  - intros item. split; [apply supplied_value_None|apply item_log_supplied].
  - fold items. unfold bind at 1. rewrite Hrun.
    unfold bind, lift, pop. rewrite (Hfinal "typesdb" _ eq_refl). cbn [fst snd].
    by destruct (parse_types fs _).
Qed.

(** ** C9: skipped lines and repeated names *)

(** C9: parsing a schema file gives what parsing it without its blank lines
    and without the lines whose first character that is not whitespace is
    [#] gives; and when the parse succeeds, a name defined by a line that
    is not skipped, with no later such line defining the same name, is
    mapped to the data sources of that line. *)
Theorem C9_skip_and_last_wins (fs : filesystem) (path : pyval)
    (before after : list string) (line name sources : string) (m : schema) :
  fs path = Ok (before ++ line :: after) ->
  skipped line = false ->
  PyStr.split1 (PyStr.strip line) = [name; sources] ->
  Forall (fun l => skipped l = false ->
                   head (PyStr.split1 (PyStr.strip l)) <> Some name) after ->
  parse_types fs path = Ok m ->
  m !! name = Some (parse_sources sources) /\
  forall (fs' : filesystem),
    fs' path = Ok (filter (fun l => skipped l = false) (before ++ line :: after)) ->
    parse_types fs' path = parse_types fs path.
Proof.
  intros Hfs Hline Hsplit Hafter Hm. split.
  - unfold parse_types in Hm. rewrite Hfs in Hm. unfold parse_lines in Hm.
    rewrite fmap_app, filter_app, fmap_cons, filter_cons in Hm.
    rewrite decide_True in Hm by (by rewrite keep_line_strip, Hline).
    rewrite fmap_app, fmap_cons, Hsplit, spec_pairs_app in Hm.
    destruct (spec_pairs (PyStr.split1 <$> filter _ (PyStr.strip <$> before)))
      as [pa|e]; [|done].
    cbn [spec_pairs unpack] in Hm.
    destruct (spec_pairs (PyStr.split1 <$> filter _ (PyStr.strip <$> after)))
      as [pb|e] eqn:Hpb; [|done].
    injection Hm as <-. apply dict_last_wins.
    intros (spec & Hspec & Hhead)%(spec_pairs_keys _ _ _ Hpb).
    apply list_elem_of_fmap in Hspec as (s & -> & [Hk Hs]%list_elem_of_filter).
    apply list_elem_of_fmap in Hs as (l & -> & Hl).
    rewrite Forall_forall in Hafter. apply (Hafter l Hl); [|done].
    rewrite keep_line_strip in Hk. by destruct (skipped l).
  - intros fs' Hfs'. unfold parse_types. rewrite Hfs, Hfs'.
    unfold parse_lines. by rewrite filter_keep_skipped.
Qed.

Lemma C9_skip_and_last_wins_witness :
  dict [("load", parse_sources "x:GAUGE:0:100");
        ("load", parse_sources "shortterm:GAUGE:0:5000, midterm:GAUGE:0:5000");
        ("cpu", parse_sources "value:DERIVE:0:U")] !! "load" =
  Some (parse_sources "shortterm:GAUGE:0:5000, midterm:GAUGE:0:5000").
Proof.
  refine (proj1 (C9_skip_and_last_wins (fun _ => Ok types_db_sample)
    (PyStr "types.db")
    ["# a types database"; "load x:GAUGE:0:100"; "   "]
    ["  # indented"; "cpu value:DERIVE:0:U"]
    "load  shortterm:GAUGE:0:5000, midterm:GAUGE:0:5000"
    "load" "shortterm:GAUGE:0:5000, midterm:GAUGE:0:5000" _ _ _ _ _ _)).
  - reflexivity.
  - reflexivity.
  - reflexivity.
  - repeat constructor; vm_compute; congruence.
  - vm_compute. reflexivity.
Defined.

(** * Further properties *)

(** ** More vocabulary *)







(** ** The default writer with a client, whatever the schema *)





(** ** Samples for the further properties *)

Definition df_sample : Values :=
  {| plugin := "df"; plugin_instance := Some "root"; type := Some "df";
     type_instance := None; values := [PyInt 7; PyFloat 2.5] |}.

Definition df_types : schema :=
  dict [("df", parse_sources "used:GAUGE:0:U, free:GAUGE:0:U, spare:GAUGE:0:U")].

Definition if_sample : Values :=
  {| plugin := "interface"; plugin_instance := Some "eth0"; type := Some "if";
     type_instance := None; values := [PyInt 1] |}.

Definition no_values_sample : Values :=
  {| plugin := "interface"; plugin_instance := None; type := Some "if_octets";
     type_instance := None; values := [] |}.

(** ** The writers *)


(** X2: for a sample of more than one value whose metric-set has an entry
    with at least as many named data sources as the sample has values, the
    default writer with a client returns normally after sending one gauge
    per value, in order, the i-th at the base path followed by the name of
    the i-th data source; the data sources past the last value play no
    part. *)
Theorem X2_default_writer_named (v : Values) (types_ : schema) c t
    (ds : list descriptor) bp w :
  1 < length (values v) ->
  type v = Some t ->
  types_ !! t = Some ds ->
  Forall has_name ds ->
  length (values v) <= length ds ->
  write_stats v types_ bp (Some c) w =
    (Ok tt,
     emit w (zip_with (info_of (plugin v) (base_of v bp)) ds (values v))
            (zip_with (gauge_of (base_of v bp)) ds (values v))) /\
  length (zip_with (gauge_of (base_of v bp)) ds (values v)) = length (values v) /\
  zip_with (gauge_of (base_of v bp)) ds (values v) =
    zip_with (gauge_of (base_of v bp)) (take (length (values v)) ds) (values v).
Proof.
  intros Hmany Hty Hentry Hnames Hlen.
  rewrite (write_stats_many v types_ c t ds) by done.
  rewrite bool_decide_eq_true_2 by done. split_and!.
  - done.
  - rewrite length_zip_with. lia.
  - by rewrite zip_with_take_l.
Qed.

Lemma X2_default_writer_named_witness :
  write_stats df_sample df_types None (Some Client) world0 =
    (Ok tt,
     emit world0
       [LogInfo "df" "df.root.df.used" (PyFloat 7);
        LogInfo "df" "df.root.df.free" (PyFloat 2.5)]
       [Gauge "df.root.df.used" (PyFloat 7);
        Gauge "df.root.df.free" (PyFloat 2.5)]).
Proof.
  refine (proj1 (X2_default_writer_named df_sample df_types Client "df"
    (parse_sources "used:GAUGE:0:U, free:GAUGE:0:U, spare:GAUGE:0:U")
    None world0 _ _ _ _ _)).
  - simpl. lia.
  - reflexivity.
  - vm_compute. reflexivity.
  - apply parse_sources_named.
  - vm_compute. lia.
Defined.

(** X3: a sample without values makes every writer return at once, with
    nothing sent and nothing logged, with or without a client: the default
    and the apache_worker_memory writers always, the interface writer when
    the metric-set name is supplied, and otherwise with TypeError. *)
Theorem X3_no_values (v : Values) (types_ : schema) client w :
  values v = [] ->
  (forall bp, write_stats v types_ bp client w = (Ok tt, w)) /\
  write_apache_worker_memory v types_ client w = (Ok tt, w) /\
  write_interface v types_ client w =
    (match type v with Some _ => Ok tt | None => Err TypeError end, w) /\
  forall plugin_, plugin_ <> "interface" ->
    get_stats_writer plugin_ v types_ client w = (Ok tt, w).
Proof.
  intros Hv.
  assert (Hstats : forall bp, write_stats v types_ bp client w = (Ok tt, w)).
  { intros bp. unfold write_stats, enumerate. by rewrite Hv. }
  assert (Hapache : write_apache_worker_memory v types_ client w = (Ok tt, w)).
  { unfold write_apache_worker_memory, enumerate. by rewrite Hv. }
  split_and!; [done|done| |].
  - unfold write_interface, bind, lift.
    destruct (type v); cbn [as_str]; [apply Hstats|done].
  - intros plugin_ Hp. unfold get_stats_writer.
    rewrite bool_decide_eq_false_2 by done. by case_bool_decide.
Qed.

Lemma X3_no_values_witness :
  write_interface no_values_sample ∅ None world0 = (Ok tt, world0).
Proof.
  refine (proj1 (proj2 (proj2
    (X3_no_values no_values_sample ∅ None world0 _)))).
  reflexivity.
Defined.

Lemma drop_short n s : String.length s <= n -> PyStr.drop n s = "".
Proof.
  revert s. induction n as [|n IH]; intros [|a s] Hl; simpl in *;
    try done; try lia. apply IH. lia.
Qed.

Lemma drop_app p s : PyStr.drop (String.length p) (p +:+ s) = s.
Proof. induction p as [|a p IH]; [done|]. apply IH. Qed.

(** X4: for a sample of one value with a metric-set name, the interface
    writer with a client sends one gauge, whatever the schema, at the path
    of [stats_path] followed by the metric-set name less its first three
    characters, whatever these are. After the prefix [if_] that is the rest
    of the name; a name of three characters or fewer leaves nothing, and
    the path ends with the separator. *)
Theorem X4_interface_single_value (v : Values) (types_ : schema) c ty x w :
  values v = [x] ->
  type v = Some ty ->
  write_interface v types_ (Some c) w =
    (Ok tt,
     emit w [LogInfo (plugin v) (stats_path v +:+ "." +:+ PyStr.drop 3 ty) (py_float x)]
            [Gauge (stats_path v +:+ "." +:+ PyStr.drop 3 ty) (py_float x)]) /\
  (forall rest, ty = "if_" +:+ rest -> PyStr.drop 3 ty = rest) /\
  (String.length ty <= 3 -> PyStr.drop 3 ty = "").
Proof.
  intros Hv Hty. split_and!.
  - unfold write_interface, bind, lift. rewrite Hty. cbn [as_str].
    unfold write_stats, enumerate. rewrite Hv.
    cbn [enumerate_from for_each]. unfold write_stats_body. rewrite Hv.
    cbn [length]. rewrite bool_decide_eq_false_2 by lia.
    unfold bind, ret, gauge. by rewrite info_run, send_run, emit_emit.
  - by intros rest ->.
  - apply drop_short.
Qed.

Lemma X4_interface_single_value_witness :
  write_interface if_sample ∅ (Some Client) world0 =
    (Ok tt, emit world0 [LogInfo "interface" "interface.eth0.if." (PyFloat 1)]
                        [Gauge "interface.eth0.if." (PyFloat 1)]).
Proof.
  refine (proj1 (X4_interface_single_value if_sample ∅ Client "if"
                   (PyInt 1) world0 _ _)); reflexivity.
Defined.


(** ** The configuration callback *)

Lemma supplied_not_option k items : k ∉ options -> supplied k items = [].
Proof.
  intros Hk. unfold supplied. induction items as [|item items IH]; [done|].
  cbn [omap list_omap]. fold (supplied k items) in *. rewrite IH.
  case_bool_decide as Hkey; [|done]. unfold supplied_value.
  rewrite bool_decide_eq_false_2; [done|]. by rewrite Hkey.
Qed.

Lemma configure_run (fs : filesystem) (config : Config.Config) w :
  exists (conf' : gmap string pyval) p,
    (forall k, conf' !! k =
       match last (supplied k (Config.children config)) with
       | Some value => Some value
       | None => DEFAULTS !! k
       end) /\
    conf' !! "typesdb" = Some p /\
    configure fs config w =
      match parse_types fs p with
      | Ok types_ =>
          register_init {| conf := delete "typesdb" conf'; types := types_;
                           stats := None |}
            (emit w (Config.children config ≫= item_log) [])
      | Err e => (Err e, emit w (Config.children config ≫= item_log) [])
      end.
Proof.
  destruct (configure_loop (Config.children config) DEFAULTS w)
    as (conf' & Hrun & Hl).
  assert (Htypesdb : is_Some (conf' !! "typesdb")).
  { rewrite Hl. by destruct (last _). }
  destruct Htypesdb as [p Hp]. exists conf', p. split_and!; [done..|].
  unfold configure, configure_conf. unfold bind at 1. rewrite Hrun.
  unfold bind, lift, pop. rewrite Hp. cbn [fst snd].
  by destruct (parse_types fs p).
Qed.

(** X6: [configure] sends no metric and registers at most one init
    callback: exactly one when the types database parses, none when
    parsing raises. The configuration it registers has exactly the keys
    [host], [port] and [prefix], whatever the items were, and no client
    yet. *)
Theorem X6_configure_registers (fs : filesystem) (config : Config.Config) w :
  sent (configure fs config w).2 = sent w /\
  match (configure fs config w).1 with
  | Ok _ =>
      exists data,
        init_callbacks (configure fs config w).2 = init_callbacks w ++ [data] /\
        (forall k, is_Some (conf data !! k) <-> k ∈ ["host"; "port"; "prefix"]) /\
        stats data = None
  | Err _ => init_callbacks (configure fs config w).2 = init_callbacks w
  end.
Proof.
  destruct (configure_run fs config w) as (conf' & p & Hl & Hp & ->).
  destruct (parse_types fs p) as [types_|e]; unfold register_init; cbn [fst snd];
    [|split; [by rewrite sent_emit, app_nil_r|done]].
  cbn [sent init_callbacks]. split; [by rewrite sent_emit, app_nil_r|].
  eexists. split_and!; [done| |done].
  intros k. cbn [conf]. destruct (decide (k = "typesdb")) as [->|Hne].
  - rewrite lookup_delete_eq. split; [by intros [? ?]|].
    rewrite !elem_of_cons, elem_of_nil. intros [?|[?|[?|[]]]]; done.
  - rewrite lookup_delete_ne by done. rewrite Hl.
    destruct (decide (k ∈ options)) as [Hk|Hk].
    + split.
      * intros _. unfold options in Hk.
        repeat (apply elem_of_cons in Hk as [->|Hk]); try done;
          [set_solver..|by apply elem_of_nil in Hk].
      * intros _. destruct (last _); [done|].
        apply not_eq_None_Some. by rewrite DEFAULTS_None; intros ?.
    + rewrite supplied_not_option by done. cbn [last].
      apply DEFAULTS_None in Hk as Hd. rewrite Hd. split; [by intros [? ?]|].
      intros Hin. exfalso. apply Hk. unfold options.
      repeat (apply elem_of_cons in Hin as [->|Hin]);
        [rewrite !elem_of_cons; auto 10..|by apply elem_of_nil in Hin].
Qed.

(** ** Characters of a string *)

(** Some character of [s] satisfies [P]. *)
Fixpoint has_char (P : ascii -> bool) (s : string) : bool :=
  match s with
  | "" => false
  | String c s' => P c || has_char P s'
  end.

Definition is_char (a c : ascii) : bool := bool_decide (c = a).

Lemma app_cons c s r : String c s +:+ r = String c (s +:+ r).
Proof. done. Qed.

Lemma app_empty r : "" +:+ r = r.
Proof. done. Qed.

Lemma app_assoc_str s1 s2 s3 : (s1 +:+ s2) +:+ s3 = s1 +:+ (s2 +:+ s3).
Proof. induction s1 as [|c s1 IH]; [done|]. by rewrite !app_cons, IH. Qed.

Lemma has_char_app P s1 s2 :
  has_char P (s1 +:+ s2) = has_char P s1 || has_char P s2.
Proof.
  induction s1 as [|c s1 IH]; [done|]. rewrite app_cons. simpl.
  rewrite IH. by rewrite orb_assoc.
Qed.

Lemma has_char_or P Q s :
  has_char (fun c => P c || Q c) s = has_char P s || has_char Q s.
Proof.
  induction s as [|c s IH]; [done|]. simpl. rewrite IH.
  destruct (P c), (Q c), (has_char P s), (has_char Q s); done.
Qed.

(** ** Splitting what was joined *)

Lemma split_on_app sep s r :
  has_char (is_char sep) s = false ->
  PyStr.split_on sep (s +:+ String sep r) = s :: PyStr.split_on sep r.
Proof.
  induction s as [|c s IH]; intros Hs.
  - rewrite app_empty. simpl. by rewrite decide_True.
  - simpl in Hs. apply orb_false_iff in Hs as [Hc Hs]. unfold is_char in Hc.
    apply bool_decide_eq_false in Hc. rewrite app_cons. simpl.
    rewrite decide_False by done. by rewrite IH.
Qed.

Lemma split_on_clean sep s :
  has_char (is_char sep) s = false -> PyStr.split_on sep s = [s].
Proof.
  induction s as [|c s IH]; intros Hs; [done|].
  simpl in Hs. apply orb_false_iff in Hs as [Hc Hs]. unfold is_char in Hc.
  apply bool_decide_eq_false in Hc. simpl. rewrite decide_False by done.
  by rewrite IH.
Qed.

Lemma join_cons sep x y l :
  PyStr.join sep (x :: y :: l) = x +:+ sep +:+ PyStr.join sep (y :: l).
Proof. done. Qed.

Lemma split_on_join sep (l : list string) :
  l <> [] ->
  Forall (fun s => has_char (is_char sep) s = false) l ->
  PyStr.split_on sep (PyStr.join (String sep "") l) = l.
Proof.
  intros Hne Hl. induction Hl as [|s l Hs Hl IH]; [done|].
  destruct l as [|s' l].
  - by apply split_on_clean.
  - rewrite join_cons, (app_cons sep ""), app_empty.
    rewrite split_on_app by done. by rewrite IH.
Qed.

Lemma split_space c r :
  PyStr.isspace c = true -> PyStr.split (String c r) = PyStr.split r.
Proof. intros Hc. simpl. by rewrite Hc. Qed.

Lemma split_token_app t c r :
  t <> "" -> has_char PyStr.isspace t = false -> PyStr.isspace c = true ->
  PyStr.split (t +:+ String c r) = t :: PyStr.split r.
Proof.
  intros Hne Ht Hc. induction t as [|a t IH]; [done|].
  simpl in Ht. apply orb_false_iff in Ht as [Ha Ht].
  rewrite app_cons. destruct t as [|b t].
  - rewrite app_empty. cbn [PyStr.split]. by rewrite Ha, Hc.
  - specialize (IH ltac:(done) Ht). rewrite app_cons in IH |- *.
    simpl in Ht. apply orb_false_iff in Ht as [Hb Ht].
    cbn [PyStr.split] in IH |- *. rewrite Ha, Hb in *.
    fold PyStr.split in *. by rewrite IH.
Qed.

Lemma split_token t :
  t <> "" -> has_char PyStr.isspace t = false -> PyStr.split t = [t].
Proof.
  intros Hne Ht. induction t as [|a t IH]; [done|].
  simpl in Ht. apply orb_false_iff in Ht as [Ha Ht].
  destruct t as [|b t].
  - simpl. by rewrite Ha.
  - specialize (IH ltac:(done) Ht).
    simpl in Ht. apply orb_false_iff in Ht as [Hb Ht].
    cbn [PyStr.split] in IH |- *. rewrite Ha, Hb in *.
    fold PyStr.split in *. by rewrite IH.
Qed.

Lemma replace_app a b s1 s2 :
  PyStr.replace a b (s1 +:+ s2) = PyStr.replace a b s1 +:+ PyStr.replace a b s2.
Proof.
  induction s1 as [|c s1 IH]; [done|]. rewrite app_cons. simpl.
  by rewrite IH, app_cons.
Qed.

Lemma replace_clean a b s :
  has_char (is_char a) s = false -> PyStr.replace a b s = s.
Proof.
  induction s as [|c s IH]; intros Hs; [done|].
  simpl in Hs. apply orb_false_iff in Hs as [Hc Hs]. unfold is_char in Hc.
  apply bool_decide_eq_false in Hc. simpl. rewrite decide_False by done.
  by rewrite IH.
Qed.

Lemma replace_replace a b s :
  a <> b -> PyStr.replace a b (PyStr.replace a b s) = PyStr.replace a b s.
Proof.
  intros Hab. induction s as [|c s IH]; [done|]. simpl. rewrite IH. f_equal.
  destruct (decide (c = a)); [by rewrite decide_False|by rewrite decide_False].
Qed.

(** ** The path and its components *)

Lemma filter_none_present (items : list (option string)) :
  filter_none items = filter (fun s => s <> "") (omap id items).
Proof.
  unfold filter_none. induction items as [|[[|a s]|] items IH]; cbn; by f_equal.
Qed.

Definition cpu_sample : Values :=
  {| plugin := "cpu"; plugin_instance := Some "0"; type := Some "cpu";
     type_instance := Some ""; values := [PyFloat 1] |}.

(** X7: when the plugin name is not empty and no component of a sample
    contains the separator [.], splitting the path at the separators gives
    back the components that are supplied and not empty, in order: the path
    determines them. *)
Theorem X7_stats_path_split (v : Values) :
  plugin v <> "" ->
  Forall (fun s => has_char (is_char "."%char) s = false) (present v) ->
  PyStr.split_on "."%char (stats_path v) = filter (fun s => s <> "") (present v).
Proof.
  intros Hp Hdots. unfold stats_path. rewrite filter_none_present.
  fold (present v). apply (split_on_join "."%char).
  - unfold present. cbn [omap list_omap id]. rewrite filter_cons.
    by rewrite decide_True.
  - apply Forall_forall. intros s [_ Hs]%list_elem_of_filter.
    by apply (proj1 (Forall_forall _ _) Hdots).
Qed.

Lemma X7_stats_path_split_witness :
  PyStr.split_on "."%char (stats_path cpu_sample) = ["cpu"; "0"; "cpu"].
Proof.
  apply (X7_stats_path_split cpu_sample).
  - simpl. discriminate.
  - repeat constructor.
Defined.

(** ** The data source specifications *)

Lemma split_nil t : PyStr.split t = [] <-> PyStr.all_space t = true.
Proof.
  induction t as [|c t IH]; [done|]. cbn [PyStr.split PyStr.all_space].
  destruct (PyStr.isspace c) eqn:Hc; [done|]. simpl.
  destruct t as [|c' t]; [done|]. destruct (PyStr.isspace c'); [done|].
  by destruct (PyStr.split (String c' t)).
Qed.

(** A character that separates data sources: whitespace or a comma. *)
Definition is_separator (c : ascii) : bool :=
  PyStr.isspace c || is_char ","%char c.

Lemma all_space_replace s :
  PyStr.all_space (PyStr.replace ","%char " "%char s) =
  negb (has_char (fun c => negb (is_separator c)) s).
Proof.
  induction s as [|c s IH]; [done|]. simpl. rewrite IH.
  unfold is_separator, is_char. case_decide as Hc.
  - subst c. by rewrite bool_decide_eq_true_2, orb_true_r by done.
  - rewrite bool_decide_eq_false_2, orb_false_r by done.
    by destruct (PyStr.isspace c), (has_char _ s).
Qed.

(** X8: in a list of data sources a comma counts exactly as a space, also
    when it is not right after an entry; the list of data sources is empty
    exactly when the specification holds nothing but commas and
    whitespace. *)
Theorem X8_commas_are_spaces (sources : string) :
  parse_sources (PyStr.replace ","%char " "%char sources) = parse_sources sources /\
  (parse_sources sources = [] <->
   has_char (fun c => negb (is_separator c)) sources = false).
Proof.
  split.
  - unfold parse_sources. by rewrite replace_replace.
  - unfold parse_sources. rewrite <- negb_true_iff, <- all_space_replace.
    rewrite <- split_nil. split; [apply fmap_nil_inv|by intros ->].
Qed.

(** A data source as the types database writes it:
    [ds-name:ds-type:min:max]. *)
Record source := {
  ds_name : string;
  ds_type : string;
  ds_min : string;
  ds_max : string;
}.

Definition quadruple (s : source) : list string :=
  [ds_name s; ds_type s; ds_min s; ds_max s].

Definition format_source (s : source) : string := PyStr.join ":" (quadruple s).

(** The entries delimited by a comma and a space. *)
Definition format_sources (l : list source) : string :=
  PyStr.join ", " (format_source <$> l).

(** The dict of a data source that has all four fields. *)
Definition descriptor_of (s : source) : descriptor :=
  dict [("name", ds_name s); ("type", ds_type s); ("min", ds_min s);
        ("max", ds_max s)].

(** A field without colon, comma or whitespace. *)
Definition clean (s : string) : Prop :=
  has_char (fun c => is_separator c || is_char ":"%char c) s = false.

Definition clean_source (s : source) : Prop := Forall clean (quadruple s).

Lemma clean_inv s :
  clean s ->
  has_char PyStr.isspace s = false /\ has_char (is_char ","%char) s = false /\
  has_char (is_char ":"%char) s = false.
Proof.
  unfold clean, is_separator. rewrite !has_char_or.
  by destruct (has_char PyStr.isspace s), (has_char (is_char ","%char) s),
    (has_char (is_char ":"%char) s).
Qed.

Lemma format_source_split s :
  clean_source s -> PyStr.split_on ":"%char (format_source s) = quadruple s.
Proof.
  intros Hs. unfold format_source. apply (split_on_join ":"%char); [done|].
  eapply Forall_impl; [exact Hs|]. intros f Hf. by apply clean_inv in Hf as (_&_&?).
Qed.

Lemma format_source_token s :
  clean_source s ->
  format_source s <> "" /\ has_char PyStr.isspace (format_source s) = false /\
  has_char (is_char ","%char) (format_source s) = false.
Proof.
  intros Hs. unfold clean_source, quadruple in Hs.
  apply Forall_cons in Hs as [(H1&H1'&_)%clean_inv Hs].
  apply Forall_cons in Hs as [(H2&H2'&_)%clean_inv Hs].
  apply Forall_cons in Hs as [(H3&H3'&_)%clean_inv Hs].
  apply Forall_cons in Hs as [(H4&H4'&_)%clean_inv _].
  unfold format_source, quadruple. rewrite !join_cons. cbn [PyStr.join].
  split_and!.
  - destruct (ds_name s); done.
  - rewrite !has_char_app, H1, H2, H3, H4. done.
  - rewrite !has_char_app, H1', H2', H3', H4'. done.
Qed.

Lemma tokens_join (tokens : list string) :
  Forall (fun t => t <> "" /\ has_char PyStr.isspace t = false
                   /\ has_char (is_char ","%char) t = false) tokens ->
  PyStr.split (PyStr.replace ","%char " "%char (PyStr.join ", " tokens)) = tokens.
Proof.
  induction 1 as [|t tokens (Hne & Hsp & Hco) Hts IH]; [done|].
  destruct tokens as [|t' tokens].
  - cbn [PyStr.join]. rewrite replace_clean by done. by apply split_token.
  - rewrite join_cons, !replace_app. rewrite (replace_clean _ _ t) by done.
    change (PyStr.replace ","%char " "%char ", ") with "  ".
    rewrite (app_cons " " " "), (app_cons " " ""), app_empty.
    rewrite split_token_app by done. rewrite split_space by done.
    by rewrite IH.
Qed.

Definition df_sources : list source :=
  [ {| ds_name := "used"; ds_type := "GAUGE"; ds_min := "0"; ds_max := "1125899906842623" |};
    {| ds_name := "free"; ds_type := "GAUGE"; ds_min := "0"; ds_max := "U" |} ].

(** X9: parsing inverts writing. A list of data sources whose fields hold
    no colon, comma or whitespace, written as quadruples
    [ds-name:ds-type:min:max] delimited by a comma and a space, parses into
    the dicts of these data sources, all four fields each, in order. *)
Theorem X9_parse_sources_format (l : list source) :
  Forall clean_source l ->
  parse_sources (format_sources l) = descriptor_of <$> l.
Proof.
  intros Hl. unfold parse_sources, format_sources.
  rewrite tokens_join.
  - rewrite <- list_fmap_compose. apply Forall_fmap_ext.
    eapply Forall_impl; [exact Hl|]. intros s Hs. simpl.
    by rewrite format_source_split.
  - apply Forall_fmap. eapply Forall_impl; [exact Hl|].
    intros s Hs. by apply format_source_token.
Qed.

Lemma X9_parse_sources_format_witness :
  parse_sources "used:GAUGE:0:1125899906842623, free:GAUGE:0:U" =
  descriptor_of <$> df_sources.
Proof.
  apply (X9_parse_sources_format df_sources).
  repeat constructor.
Defined.

(** ** The fields of a line *)

Lemma all_space_rstrip s : PyStr.all_space (PyStr.rstrip s) = PyStr.all_space s.
Proof.
  induction s as [|c s IH]; [done|]. cbn [PyStr.rstrip].
  destruct (PyStr.all_space (String c s)) eqn:Hs; [done|].
  cbn [PyStr.all_space] in Hs |- *. by rewrite IH.
Qed.

Lemma rstrip_rstrip s : PyStr.rstrip (PyStr.rstrip s) = PyStr.rstrip s.
Proof.
  induction s as [|c s IH]; [done|]. cbn [PyStr.rstrip].
  destruct (PyStr.all_space (String c s)) eqn:Hs; [done|].
  cbn [PyStr.rstrip]. cbn [PyStr.all_space] in Hs |- *.
  rewrite all_space_rstrip, Hs. by rewrite IH.
Qed.

(** A string that [rstrip] leaves alone does not end in whitespace. *)
Lemma rstrip_fixed_tail w r :
  PyStr.rstrip (w +:+ r) = w +:+ r -> PyStr.all_space r = true -> r = "".
Proof.
  induction w as [|a w IH]; intros Hfix Hr.
  - rewrite app_empty in Hfix. destruct r as [|c r]; [done|].
    cbn [PyStr.rstrip] in Hfix. by rewrite Hr in Hfix.
  - rewrite app_cons in Hfix. cbn [PyStr.rstrip] in Hfix.
    destruct (PyStr.all_space (String a (w +:+ r))); [done|].
    injection Hfix as Hfix. by apply IH.
Qed.

Lemma app_empty_r s : s +:+ "" = s.
Proof. induction s as [|c s IH]; [done|]. by rewrite app_cons, IH. Qed.

(** [break_space] cuts a string before its first whitespace character. *)
Lemma break_space_spec s :
  s = (PyStr.break_space s).1 +:+ (PyStr.break_space s).2 /\
  has_char PyStr.isspace (PyStr.break_space s).1 = false /\
  match (PyStr.break_space s).2 with
  | "" => True
  | String b _ => PyStr.isspace b = true
  end /\
  match s with
  | "" => True
  | String c _ =>
      PyStr.isspace c = false -> exists w', (PyStr.break_space s).1 = String c w'
  end.
Proof.
  induction s as [|c s (IH1 & IH2 & IH3 & _)]; [done|]. cbn [PyStr.break_space].
  destruct (PyStr.isspace c) eqn:Hc.
  - cbn [fst snd]. by rewrite app_empty.
  - destruct (PyStr.break_space s) as [w r]. cbn [fst snd] in *.
    rewrite app_cons. split_and!.
    + by rewrite <- IH1.
    + simpl. by rewrite Hc.
    + done.
    + intros _. by eexists.
Qed.

(** The fields of a line that is not skipped: the stripped line itself when
    it holds no whitespace, and otherwise a name and a specification. The
    name is not empty, holds no whitespace and does not begin with [#]. *)
Lemma split1_strip l :
  skipped l = false ->
  exists name, name <> "" /\ has_char PyStr.isspace name = false /\
    PyStr.startswith "#" name = false /\
    ((has_char PyStr.isspace (PyStr.strip l) = false /\
      PyStr.split1 (PyStr.strip l) = [name] /\ name = PyStr.strip l) \/
     (has_char PyStr.isspace (PyStr.strip l) = true /\
      exists sources, PyStr.split1 (PyStr.strip l) = [name; sources])).
Proof.
  intros Hs. pose proof (keep_line_strip l) as Hk. rewrite Hs in Hk.
  unfold keep_line in Hk. apply andb_true_iff in Hk as [Hne Hhash].
  apply negb_true_iff, bool_decide_eq_false in Hne.
  apply negb_true_iff in Hhash.
  assert (Hfix : PyStr.rstrip (PyStr.strip l) = PyStr.strip l)
    by apply rstrip_rstrip.
  assert (Hc : exists c s, PyStr.strip l = String c s /\ PyStr.isspace c = false).
  { unfold PyStr.strip in *. destruct (PyStr.lstrip l) as [|c s] eqn:Hc; [done|].
    apply lstrip_head in Hc. cbn [PyStr.rstrip PyStr.all_space] in *.
    rewrite Hc in *. cbn [andb]. by eauto. }
  destruct Hc as (c & s & Ht & Hc). rewrite Ht in *.
  unfold PyStr.split1. cbn [PyStr.lstrip]. rewrite Hc.
  destruct (break_space_spec (String c s)) as (Happ & Hw & Hr & Hhead).
  destruct (Hhead Hc) as [w' Hw'].
  destruct (PyStr.break_space (String c s)) as [w r]. cbn [fst snd] in *.
  exists w. split_and!.
  - by rewrite Hw'.
  - done.
  - rewrite Hw'. by cbn [PyStr.startswith] in Hhash |- *.
  - destruct (PyStr.lstrip r) as [|a r'] eqn:Hlr.
    + left. assert (r = "") as ->.
      { apply (rstrip_fixed_tail w); [by rewrite <- Happ|].
        by rewrite <- all_space_lstrip, Hlr. }
      rewrite app_empty_r in Happ. by rewrite Happ.
    + right. split; [|by eauto].
      rewrite Happ, has_char_app, Hw. cbn [orb].
      destruct r as [|b r0]; [done|]. simpl. by rewrite Hr.
Qed.

(** ** The lines and the pairs of a types database *)

Lemma spec_pairs_Err specs : forall e,
  spec_pairs specs = Err e <->
  e = ValueError /\ Exists (fun spec => length spec <> 2) specs.
Proof.
  induction specs as [|spec specs IH]; intros e; simpl.
  - split; [done|]. by intros [_ ?%Exists_nil].
  - destruct spec as [|name [|sources [|x spec]]]; cbn [unpack].
    1, 2, 4: split; [intros [= <-]; split; [done|by left]|by intros [-> _]].
    destruct (spec_pairs specs) as [ps|e'] eqn:Hps.
    + split; [done|]. intros [-> [?|He]%Exists_cons]; [done|].
      discriminate (proj2 (IH ValueError) (conj eq_refl He)).
    + split.
      * intros [= <-]. destruct (proj1 (IH e') eq_refl) as [-> He].
        split; [done|by right].
      * intros [-> [?|He]%Exists_cons]; [done|].
        by rewrite <- (proj2 (IH ValueError) (conj eq_refl He)).
Qed.

Lemma spec_pairs_elem specs : forall ps spec,
  spec_pairs specs = Ok ps -> spec ∈ specs ->
  exists name sources, spec = [name; sources] /\ (name, parse_sources sources) ∈ ps.
Proof.
  induction specs as [|spec' specs IH]; intros ps spec; simpl.
  - by intros _ ?%elem_of_nil.
  - destruct (unpack spec') as [[name sources]|e] eqn:Hu; [|done].
    destruct (spec_pairs specs) as [ps'|e]; [|done].
    intros [= <-] [->|Hin]%elem_of_cons.
    + exists name, sources. split; [|by left].
      destruct spec' as [|? [|? [|]]]; by simplify_eq/=.
    + destruct (IH ps' spec eq_refl Hin) as (n & s & -> & Hp).
      exists n, s. split; [done|by right].
Qed.

Lemma foldl_setitem_is_Some {V} (l : list (string * V)) :
  forall (m : gmap string V) k,
  is_Some (foldl setitem m l !! k) <-> k ∈ l.*1 \/ is_Some (m !! k).
Proof.
  induction l as [|[k' x'] l IH]; intros m k; simpl.
  - rewrite elem_of_nil. tauto.
  - rewrite IH. unfold setitem. simpl. rewrite lookup_insert_is_Some'.
    rewrite elem_of_cons. intuition congruence.
Qed.

Lemma dict_is_Some {V} (l : list (string * V)) k :
  is_Some (dict l !! k) <-> k ∈ l.*1.
Proof.
  unfold dict. rewrite foldl_setitem_is_Some, lookup_empty.
  split; [by intros [?|[? ?]]|by left].
Qed.

Definition broken_db : list string := ["# kinds"; "load x:GAUGE:0:1"; "  cpu  "].

(** X10: once the file is open, [parse_types] raises exactly when some
    line that is not skipped holds, once stripped, no whitespace, that is
    a name without data sources; the exception is ValueError, and no other
    exception is raised. *)
Theorem X10_parse_types_errors (fs : filesystem) (path : pyval)
    (lines : list string) :
  fs path = Ok lines ->
  (parse_types fs path = Err ValueError <->
   Exists (fun l => skipped l = false /\
                    has_char PyStr.isspace (PyStr.strip l) = false) lines) /\
  forall e, parse_types fs path = Err e -> e = ValueError.
Proof.
  intros Hfs. unfold parse_types, parse_lines. rewrite Hfs.
  set (specs := PyStr.split1 <$> _).
  assert (Herr : forall e, match spec_pairs specs with
                           | Ok ps => Ok (dict ps)
                           | Err e' => Err e'
                           end = Err e <-> spec_pairs specs = Err e).
  { intros e. destruct (spec_pairs specs); split; intros ?; by simplify_eq. }
  split.
  - rewrite Herr, spec_pairs_Err, !Exists_exists. split.
    + intros [_ (spec & Hin & Hlen)].
      apply elem_of_specs in Hin as (l & Hl & Hs & ->). exists l.
      split; [done|]. split; [done|].
      destruct (split1_strip l Hs) as (name & _ & _ & _ & [(? & _)|(_ & src & Hsp)]);
        [done|]. by rewrite Hsp in Hlen.
    + intros (l & Hl & Hs & Hsp). split; [done|].
      exists (PyStr.split1 (PyStr.strip l)). split.
      * apply elem_of_specs. eauto.
      * destruct (split1_strip l Hs)
          as (name & _ & _ & _ & [(_ & -> & _)|(Hsp' & _)]); [done|].
        by rewrite Hsp in Hsp'.
  - intros e He. apply Herr in He. by apply spec_pairs_Err in He as [-> _].
Qed.

Lemma X10_parse_types_errors_witness :
  parse_types (fun _ => Ok broken_db) (PyStr "types.db") = Err ValueError.
Proof.
  apply (X10_parse_types_errors (fun _ => Ok broken_db) (PyStr "types.db")
           broken_db eq_refl).
  apply Exists_cons_tl, Exists_cons_tl, Exists_cons_hd. split; reflexivity.
Defined.

(** X11: when [parse_types] succeeds, the names of the schema are exactly
    the first fields of the lines that are not skipped; none of them is
    empty, holds whitespace or begins with [#]. *)
Theorem X11_schema_names (fs : filesystem) (path : pyval)
    (lines : list string) (m : schema) :
  fs path = Ok lines ->
  parse_types fs path = Ok m ->
  (forall name, is_Some (m !! name) <->
     Exists (fun l => skipped l = false /\
                      head (PyStr.split1 (PyStr.strip l)) = Some name) lines) /\
  (forall name, is_Some (m !! name) ->
     name <> "" /\ has_char PyStr.isspace name = false /\
     PyStr.startswith "#" name = false).
Proof.
  intros Hfs. unfold parse_types, parse_lines. rewrite Hfs.
  destruct (spec_pairs _) as [ps|e] eqn:Hps; [|done]. intros [= <-].
  assert (Hnames : forall name, is_Some (dict ps !! name) <->
     Exists (fun l => skipped l = false /\
                      head (PyStr.split1 (PyStr.strip l)) = Some name) lines).
  { intros name. rewrite dict_is_Some, Exists_exists. split.
    - intros (spec & Hin & Hhead)%(spec_pairs_keys _ _ _ Hps).
      apply elem_of_specs in Hin as (l & Hl & Hs & ->). eauto.
    - intros (l & Hl & Hs & Hhead).
      destruct (spec_pairs_elem _ ps (PyStr.split1 (PyStr.strip l)) Hps)
        as (n & src & Hsp & Hin); [apply elem_of_specs; by eauto|].
      rewrite Hsp in Hhead. injection Hhead as <-.
      apply list_elem_of_fmap. by exists (n, parse_sources src). }
  split; [done|]. intros name (l & Hl & Hs & Hhead)%Hnames%Exists_exists.
  destruct (split1_strip l Hs)
    as (n & H1 & H2 & H3 & [(_ & Hsp & _)|(_ & src & Hsp)]);
    rewrite Hsp in Hhead; by injection Hhead as <-.
Qed.

Lemma X11_schema_names_witness :
  is_Some (dict [("load", parse_sources "x:GAUGE:0:100");
                 ("load", parse_sources "shortterm:GAUGE:0:5000, midterm:GAUGE:0:5000");
                 ("cpu", parse_sources "value:DERIVE:0:U")] !! "cpu") <->
  Exists (fun l => skipped l = false /\
                   head (PyStr.split1 (PyStr.strip l)) = Some "cpu") types_db_sample.
Proof.
  apply (X11_schema_names (fun _ => Ok types_db_sample) (PyStr "types.db")
           types_db_sample _ eq_refl).
  vm_compute. reflexivity.
Defined.

(** ** The characters of the fields *)

Lemma split_tokens s :
  Forall (fun t => t <> "" /\ has_char PyStr.isspace t = false) (PyStr.split s).
Proof.
  induction s as [|c s IH]; [by constructor|]. cbn [PyStr.split].
  destruct (PyStr.isspace c) eqn:Hc; [done|].
  destruct s as [|c' s]; [repeat constructor; simpl; by rewrite ?Hc|].
  destruct (PyStr.isspace c') eqn:Hc'.
  - constructor; [simpl; by rewrite Hc|done].
  - destruct (PyStr.split (String c' s)) as [|w ws];
      [repeat constructor; simpl; by rewrite ?Hc|].
    apply Forall_cons in IH as [[_ Hw] Hws].
    constructor; [|done]. split; [done|]. simpl. by rewrite Hc.
Qed.

Lemma split_has_char P s :
  has_char P s = false ->
  Forall (fun t => has_char P t = false) (PyStr.split s).
Proof.
  induction s as [|c s IH]; [by constructor|]. intros Hs.
  simpl in Hs. apply orb_false_iff in Hs as [Hc Hs]. specialize (IH Hs).
  cbn [PyStr.split]. destruct (PyStr.isspace c); [done|].
  destruct s as [|c' s]; [repeat constructor; simpl; by rewrite Hc|].
  destruct (PyStr.isspace c').
  - constructor; [simpl; by rewrite Hc|done].
  - destruct (PyStr.split (String c' s)) as [|w ws];
      [repeat constructor; simpl; by rewrite Hc|].
    apply Forall_cons in IH as [Hw Hws].
    constructor; [|done]. simpl. by rewrite Hc.
Qed.

Lemma split_on_has_char P sep s :
  has_char P s = false ->
  Forall (fun t => has_char P t = false) (PyStr.split_on sep s).
Proof.
  induction s as [|c s IH]; [by repeat constructor|]. intros Hs.
  simpl in Hs. apply orb_false_iff in Hs as [Hc Hs]. specialize (IH Hs).
  cbn [PyStr.split_on]. case_decide; [by constructor|].
  destruct (PyStr.split_on sep s) as [|w ws];
    [repeat constructor; simpl; by rewrite Hc|].
  apply Forall_cons in IH as [Hw Hws]. constructor; [|done].
  simpl. by rewrite Hc.
Qed.

Lemma split_on_no_sep sep s :
  Forall (fun t => has_char (is_char sep) t = false) (PyStr.split_on sep s).
Proof.
  induction s as [|c s IH]; [by repeat constructor|].
  cbn [PyStr.split_on]. case_decide as Hc; [by constructor|].
  assert (is_char sep c = false) as Hc'
    by (unfold is_char; by rewrite bool_decide_eq_false_2).
  destruct (PyStr.split_on sep s) as [|w ws];
    [repeat constructor; simpl; by rewrite Hc'|].
  apply Forall_cons in IH as [Hw Hws]. constructor; [|done].
  simpl. by rewrite Hc'.
Qed.

Lemma replace_no_comma s :
  has_char (is_char ","%char) (PyStr.replace ","%char " "%char s) = false.
Proof.
  induction s as [|c s IH]; [done|]. simpl. rewrite IH.
  unfold is_char. case_decide; by rewrite bool_decide_eq_false_2.
Qed.

(** The fields of the data sources of a specification. *)
Lemma parse_sources_parts sources d :
  d ∈ parse_sources sources ->
  exists parts, d = dict (zip fields parts) /\ parts <> [] /\ Forall clean parts.
Proof.
  unfold parse_sources. intros (token & -> & Htok)%list_elem_of_fmap.
  exists (PyStr.split_on ":"%char token). split_and!; [done| |].
  - by destruct (split_on_nonempty ":"%char token) as (p & ps & ->).
  - pose proof (split_tokens (PyStr.replace ","%char " "%char sources)) as Hsp.
    pose proof (split_has_char _ _ (replace_no_comma sources)) as Hco.
    rewrite Forall_forall in Hsp, Hco.
    destruct (Hsp _ Htok) as [_ Hsp']. specialize (Hco _ Htok).
    pose proof (split_on_has_char _ ":"%char _ Hsp') as H1.
    pose proof (split_on_has_char _ ":"%char _ Hco) as H2.
    pose proof (split_on_no_sep ":"%char token) as H3.
    rewrite Forall_forall in H1, H2, H3 |- *. intros x Hx.
    unfold clean, is_separator. rewrite !has_char_or.
    by rewrite (H1 x Hx), (H2 x Hx), (H3 x Hx).
Qed.

(** X12: every data source of a parsed types database has a name, has
    [min] only with [type] and [max] only with [min], has no key but
    [name], [type], [min] and [max], and holds no colon, comma or
    whitespace in any of its values. *)
Theorem X12_descriptor_fields (fs : filesystem) (path : pyval) (m : schema)
    (t : string) (ds : list descriptor) (d : descriptor) :
  parse_types fs path = Ok m ->
  m !! t = Some ds ->
  d ∈ ds ->
  is_Some (d !! "name") /\
  (is_Some (d !! "max") -> is_Some (d !! "min")) /\
  (is_Some (d !! "min") -> is_Some (d !! "type")) /\
  (forall k, is_Some (d !! k) -> k ∈ fields) /\
  (forall k x, d !! k = Some x -> clean x).
Proof.
  unfold parse_types, parse_lines. destruct (fs path) as [lines|e]; [|done].
  destruct (spec_pairs _) as [ps|e] eqn:Hps; [|done].
  intros [= <-] Hm%dict_Some Hd.
  destruct (spec_pairs_values _ _ _ _ Hps Hm) as [sources ->].
  destruct (parse_sources_parts sources d Hd) as (parts & -> & Hne & Hclean).
  destruct (descriptor_lookup parts) as (Hname & Htype & Hmin & Hmax & Hother).
  cbv zeta in *. rewrite Hname, Htype, Hmin, Hmax. split_and!.
  - destruct parts; [done|by eexists].
  - intros [x Hx]. apply lookup_lt_Some in Hx.
    apply lookup_lt_is_Some. lia.
  - intros [x Hx]. apply lookup_lt_Some in Hx.
    apply lookup_lt_is_Some. lia.
  - intros k [x Hx]. destruct (decide (k ∈ fields)) as [|Hk]; [done|].
    by rewrite (Hother k Hk) in Hx.
  - intros k x Hx. destruct (decide (k ∈ fields)) as [Hk|Hk].
    + rewrite Forall_forall in Hclean. apply Hclean. unfold fields in Hk.
      repeat (apply elem_of_cons in Hk as [->|Hk]);
        [rewrite ?Hname, ?Htype, ?Hmin, ?Hmax in Hx;
         by apply list_elem_of_lookup_2 in Hx..|by apply elem_of_nil in Hk].
    + by rewrite (Hother k Hk) in Hx.
Qed.

Lemma X12_descriptor_fields_witness :
  let d := dict (zip fields ["shortterm"; "GAUGE"; "0"; "5000"]) in
  is_Some (d !! "name") /\
  (is_Some (d !! "max") -> is_Some (d !! "min")) /\
  (is_Some (d !! "min") -> is_Some (d !! "type")) /\
  (forall k, is_Some (d !! k) -> k ∈ fields) /\
  (forall k x, d !! k = Some x -> clean x).
Proof.
  refine (X12_descriptor_fields (fun _ => Ok types_db_sample) (PyStr "types.db")
    (dict [("load", parse_sources "x:GAUGE:0:100");
           ("load", parse_sources "shortterm:GAUGE:0:5000, midterm:GAUGE:0:5000");
           ("cpu", parse_sources "value:DERIVE:0:U")])
    "load" (parse_sources "shortterm:GAUGE:0:5000, midterm:GAUGE:0:5000")
    _ _ _ _).
  - vm_compute. reflexivity.
  - vm_compute. reflexivity.
  - vm_compute. left.
Defined.

(** ** From the file to the gauges *)

(** The name in an entry of a specification. *)
Definition token_name (token : string) : string :=
  default "" (head (PyStr.split_on ":"%char token)).

Lemma source_name_token token :
  source_name (dict (zip fields (PyStr.split_on ":"%char token))) = token_name token.
Proof.
  unfold source_name, token_name.
  destruct (descriptor_lookup (PyStr.split_on ":"%char token)) as [Hname _].
  cbv zeta in Hname. by rewrite Hname, head_lookup.
Qed.

(** X13: from the file to the gauges. When the last line that defines the
    metric-set name of a sample has at least as many entries as the sample
    has values, more than one, the default writer with a client and the
    parsed schema sends one gauge per value, the i-th at the path of
    [stats_path] followed by the first colon-delimited field of the i-th
    entry of that line, and returns normally. *)
Theorem X13_parse_then_write (fs : filesystem) (path : pyval)
    (before after : list string) (line t sources : string) (types_ : schema)
    (v : Values) c w :
  fs path = Ok (before ++ line :: after) ->
  skipped line = false ->
  PyStr.split1 (PyStr.strip line) = [t; sources] ->
  Forall (fun l => skipped l = false ->
                   head (PyStr.split1 (PyStr.strip l)) <> Some t) after ->
  parse_types fs path = Ok types_ ->
  type v = Some t ->
  1 < length (values v) ->
  length (values v) <= length (tokens sources) ->
  write_stats v types_ None (Some c) w =
    (Ok tt,
     emit w
       (zip_with (fun token x =>
                    LogInfo (plugin v) (stats_path v +:+ "." +:+ token_name token)
                            (py_float x)) (tokens sources) (values v))
       (zip_with (fun token x =>
                    Gauge (stats_path v +:+ "." +:+ token_name token)
                          (py_float x)) (tokens sources) (values v))).
Proof.
  intros Hfs Hline Hsplit Hafter Hparse Hty Hmany Hlen.
  pose proof (parse_types_last _ _ _ _ _ _ _ _ Hfs Hline Hsplit Hafter Hparse)
    as Hentry.
  rewrite (write_stats_many v types_ c t (parse_sources sources))
    by (try done; apply parse_sources_named).
  rewrite bool_decide_eq_true_2
    by (unfold parse_sources; rewrite length_fmap; exact Hlen).
  unfold parse_sources. fold (tokens sources). rewrite !zip_with_fmap_l.
  f_equal. f_equal.
  - apply zip_with_ext; [|done..]. intros token x.
    unfold info_of. by rewrite source_name_token.
  - apply zip_with_ext; [|done..]. intros token x.
    unfold gauge_of. by rewrite source_name_token.
Qed.

Lemma X13_parse_then_write_witness :
  write_stats
    {| plugin := "load"; plugin_instance := None; type := Some "load";
       type_instance := None; values := [PyFloat 0.5; PyInt 2] |}
    (dict [("load", parse_sources "x:GAUGE:0:100");
           ("load", parse_sources "shortterm:GAUGE:0:5000, midterm:GAUGE:0:5000");
           ("cpu", parse_sources "value:DERIVE:0:U")])
    None (Some Client) world0 =
  (Ok tt,
   emit world0
     [LogInfo "load" "load.load.shortterm" (PyFloat 0.5);
      LogInfo "load" "load.load.midterm" (PyFloat 2)]
     [Gauge "load.load.shortterm" (PyFloat 0.5);
      Gauge "load.load.midterm" (PyFloat 2)]).
Proof.
  refine (X13_parse_then_write (fun _ => Ok types_db_sample) (PyStr "types.db")
    ["# a types database"; "load x:GAUGE:0:100"; "   "]
    ["  # indented"; "cpu value:DERIVE:0:U"]
    "load  shortterm:GAUGE:0:5000, midterm:GAUGE:0:5000"
    "load" "shortterm:GAUGE:0:5000, midterm:GAUGE:0:5000" _ _ Client world0
    _ _ _ _ _ _ _ _).
  - reflexivity.
  - reflexivity.
  - reflexivity.
  - repeat constructor; vm_compute; congruence.
  - vm_compute. reflexivity.
  - reflexivity.
  - simpl. lia.
  - vm_compute. lia.
Defined.

(** X14: for a sample of more than one value whose metric-set name is
    supplied and has an entry with at least as many named data sources as
    the sample has values, the interface writer with a client returns
    normally after sending one gauge per value, the i-th at the path of
    [stats_path], then the metric-set name less its first three
    characters, then the name of the i-th data source. *)
Theorem X14_interface_writer_named (v : Values) (types_ : schema) c ty
    (ds : list descriptor) w :
  1 < length (values v) ->
  type v = Some ty ->
  types_ !! ty = Some ds ->
  Forall has_name ds ->
  length (values v) <= length ds ->
  write_interface v types_ (Some c) w =
    (Ok tt,
     emit w
       (zip_with (fun d x =>
          LogInfo (plugin v)
            (stats_path v +:+ "." +:+ PyStr.drop 3 ty +:+ "." +:+ source_name d)
            (py_float x)) ds (values v))
       (zip_with (fun d x =>
          Gauge (stats_path v +:+ "." +:+ PyStr.drop 3 ty +:+ "." +:+ source_name d)
                (py_float x)) ds (values v))).
Proof.
  intros Hmany Hty Hentry Hnames Hlen.
  unfold write_interface, bind, lift. rewrite Hty. cbn [as_str].
  rewrite (write_stats_many v types_ c ty ds) by done.
  rewrite bool_decide_eq_true_2 by done. cbn [base_of].
  f_equal. f_equal.
  - apply zip_with_ext; [|done..]. intros d x. unfold info_of.
    by rewrite !join_cons, !app_assoc_str.
  - apply zip_with_ext; [|done..]. intros d x. unfold gauge_of.
    by rewrite !join_cons, !app_assoc_str.
Qed.

Lemma X14_interface_writer_named_witness :
  write_interface
    {| plugin := "interface"; plugin_instance := None; type := Some "if_packets";
       type_instance := Some "eth1"; values := [PyInt 5; PyInt 6] |}
    (dict [("if_packets", parse_sources "rx:DERIVE:0:U, tx:DERIVE:0:U")])
    (Some Client) world0 =
  (Ok tt,
   emit world0
     [LogInfo "interface" "interface.if_packets.eth1.packets.rx" (PyFloat 5);
      LogInfo "interface" "interface.if_packets.eth1.packets.tx" (PyFloat 6)]
     [Gauge "interface.if_packets.eth1.packets.rx" (PyFloat 5);
      Gauge "interface.if_packets.eth1.packets.tx" (PyFloat 6)]).
Proof.
  refine (X14_interface_writer_named _ _ Client "if_packets"
    (parse_sources "rx:DERIVE:0:U, tx:DERIVE:0:U") world0 _ _ _ _ _).
  - simpl. lia.
  - reflexivity.
  - vm_compute. reflexivity.
  - apply parse_sources_named.
  - vm_compute. lia.
Defined.
